(** * Polychromatic: the backend "middleman" (pylib/middleman.py)

    A shallow embedding of the [Middleman] class: backend loading and its
    failure classification, the lazily populated device cache, the fresh
    device look-ups, the resolution of the active effect of a device and the
    "apply to all" option.

    Conventions of the embedding.
    - A method of [Middleman] is a computation in the monad [M]: it receives
      the instance, returns it (possibly mutated) and either returns a value
      or raises a Python exception. What was mutated before a raise stays
      mutated, as in Python.
    - Exceptions are the subclasses of Python's [Exception]; the handlers of
      the methods modelled here are [except Exception], [except (ImportError,
      ModuleNotFoundError)], [except NameError] and [except KeyError].
      System-exiting exceptions (KeyboardInterrupt, SystemExit) are outside
      the model.
    - A backend is an external collaborator. Its construction and its
      [init()] have the outcome the registry entry fixes; its queries answer
      from the state of the hardware at the time of the call, a [World].
      The look-ups by name and by serial either return or raise, since the
      methods that call them have no handler; [get_devices()] is taken to
      return, the statements on the cache being about what is done with
      the value it returns. *)

From stdpp Require Import gmap strings list fin_maps.

Local Open Scope string_scope.
Local Open Scope list_scope.

(** ** Exceptions *)

Inductive exn_class :=
| ImportError
| ModuleNotFoundError   (* subclass of ImportError *)
| KeyError
| NameError
| AttributeError
| OtherException.       (* any other subclass of Exception *)

Record exn := Exn { exn_cls : exn_class; exn_arg : string }.

(** [except (ImportError, ModuleNotFoundError)] *)
Definition is_import_error (e : exn) : bool :=
  match exn_cls e with
  | ImportError | ModuleNotFoundError => true
  | _ => false
  end.

(** [except NameError] *)
Definition is_name_error (e : exn) : bool :=
  match exn_cls e with
  | NameError => true
  | _ => false
  end.

Inductive outcome (A : Type) :=
| Returns (a : A)
| Raises (e : exn).
Arguments Returns {A} a.
Arguments Raises {A} e.

(** ** Values exchanged with a backend *)

(** The state of the hardware a backend answers from. *)
Definition World : Type := nat.

Record DeviceItem := {
  name : string;
  serial : string;
  form_factor_id : string
}.

Inductive pyval :=
| PyNone
| PyBool (b : bool)
| PyInt (n : Z)
| PyStr (s : string)
| PyList (l : list DeviceItem)
| PyDeviceItem (d : DeviceItem).

(** Truth value of an object, as tested by [if x:]. *)
Definition truthy (v : pyval) : bool :=
  match v with
  | PyNone => false
  | PyBool b => b
  | PyInt n => negb (n =? 0)%Z
  | PyStr s => negb (String.eqb s "")
  | PyList l => negb (bool_decide (l = []))
  | PyDeviceItem _ => true
  end.

Module Backend.
(** The capability set of a backend that [Middleman] calls. [init] and the
    two look-ups are outcomes: they return a value or raise. [get_devices]
    is the value a call that returns hands back, a list or anything else
    (None, the error string of a daemon that is not running); what the
    cache holds is stated for such backends, a [get_devices()] that raises
    is outside this record. *)
Record t := {
  backend_id : string;
  version : string;
  init : outcome pyval;
  get_devices : World -> pyval;
  get_device_by_name : World -> string -> outcome pyval;
  get_device_by_serial : World -> string -> outcome pyval
}.
End Backend.

(** A troubleshooting routine, an opaque callable identified by its name. *)
Definition Troubleshooter : Type := string.

(** The module-level registries. [BACKEND_NAMES] is a dict, iterated in
    insertion order; calling [BACKEND_MODULES[id](dbg, common, _)] either
    returns the backend object or raises. *)
Record Registry := {
  BACKEND_NAMES : list (string * string);
  BACKEND_MODULES : gmap string (outcome Backend.t);
  TROUBLESHOOT_MODULES : gmap string Troubleshooter
}.

Definition keys {A B : Type} (d : list (A * B)) : list A := fst <$> d.

(** The [common] module, as far as [Middleman] uses it. *)
Record Common := {
  get_exception_as_string : exn -> string
}.

(** A Python list object holding devices: its identity and its elements.
    Two references are the same object exactly when the identities agree;
    [Middleman] never mutates a cache list in place, it rebinds the
    attribute to a new list. *)
Record list_object := {
  oid : nat;
  elems : list DeviceItem
}.

(** ** The instance *)

Record Middleman := {
  _common : Common;
  backends : list Backend.t;
  bad_init : list Backend.t;
  not_installed : list string;
  troubleshooters : gmap string Troubleshooter;
  import_errors : gmap string string;
  device_cache : list_object;
  (* interpreter state: how many list objects were created so far *)
  allocated : nat
}.

Definition set_backends (f : list Backend.t -> list Backend.t) (s : Middleman) : Middleman :=
  {| _common := _common s; backends := f (backends s); bad_init := bad_init s;
     not_installed := not_installed s; troubleshooters := troubleshooters s;
     import_errors := import_errors s; device_cache := device_cache s;
     allocated := allocated s |}.

Definition set_bad_init (f : list Backend.t -> list Backend.t) (s : Middleman) : Middleman :=
  {| _common := _common s; backends := backends s; bad_init := f (bad_init s);
     not_installed := not_installed s; troubleshooters := troubleshooters s;
     import_errors := import_errors s; device_cache := device_cache s;
     allocated := allocated s |}.

Definition set_not_installed (f : list string -> list string) (s : Middleman) : Middleman :=
  {| _common := _common s; backends := backends s; bad_init := bad_init s;
     not_installed := f (not_installed s); troubleshooters := troubleshooters s;
     import_errors := import_errors s; device_cache := device_cache s;
     allocated := allocated s |}.

Definition set_troubleshooters
    (f : gmap string Troubleshooter -> gmap string Troubleshooter) (s : Middleman) : Middleman :=
  {| _common := _common s; backends := backends s; bad_init := bad_init s;
     not_installed := not_installed s; troubleshooters := f (troubleshooters s);
     import_errors := import_errors s; device_cache := device_cache s;
     allocated := allocated s |}.

Definition set_import_errors
    (f : gmap string string -> gmap string string) (s : Middleman) : Middleman :=
  {| _common := _common s; backends := backends s; bad_init := bad_init s;
     not_installed := not_installed s; troubleshooters := troubleshooters s;
     import_errors := f (import_errors s); device_cache := device_cache s;
     allocated := allocated s |}.

(** [self.device_cache = <new list object holding l>] *)
Definition bind_new_cache (l : list DeviceItem) (s : Middleman) : Middleman :=
  {| _common := _common s; backends := backends s; bad_init := bad_init s;
     not_installed := not_installed s; troubleshooters := troubleshooters s;
     import_errors := import_errors s;
     device_cache := {| oid := allocated s; elems := l |};
     allocated := S (allocated s) |}.

(** ** The monad of methods *)

Definition M (A : Type) : Type := Middleman -> outcome A * Middleman.

Definition ret {A} (a : A) : M A := fun s => (Returns a, s).

Definition raise {A} (e : exn) : M A := fun s => (Raises e, s).

Definition bind {A B} (c : M A) (k : A -> M B) : M B :=
  fun s =>
    match c s with
    | (Returns a, s') => k a s'
    | (Raises e, s') => (Raises e, s')
    end.

Definition get : M Middleman := fun s => (Returns s, s).

Definition modify (f : Middleman -> Middleman) : M unit := fun s => (Returns tt, f s).

(** The result of a call into a collaborator. *)
Definition call {A} (o : outcome A) : M A :=
  match o with
  | Returns a => ret a
  | Raises e => raise e
  end.

(** [d[k]] on a dict: KeyError when the key is absent. *)
Definition subscript {V} (d : gmap string V) (k : string) : M V :=
  match d !! k with
  | Some v => ret v
  | None => raise (Exn KeyError k)
  end.

(** [try: body / except ...: handler]: the handler sees the exception and
    the state the body left; it re-raises what no clause matches. *)
Definition try_except {A} (body : M A) (handler : exn -> M A) : M A :=
  fun s =>
    match body s with
    | (Returns a, s') => (Returns a, s')
    | (Raises e, s') => handler e s'
    end.

Declare Scope py_scope.
Delimit Scope py_scope with py.
Notation "x <- c ;; k" := (bind c (fun x => k))
  (at level 100, c at next level, right associativity) : py_scope.
Notation "c ;; k" := (bind c (fun _ => k))
  (at level 100, right associativity) : py_scope.
Local Open Scope py_scope.

(** [for x in l: body(x)], left as soon as the body raises. *)
Fixpoint for_each {A} (l : list A) (body : A -> M unit) : M unit :=
  match l with
  | [] => ret tt
  | x :: l' => body x ;; for_each l' body
  end.

(** ** Middleman.__init__ and Middleman.init *)

Definition __init__ (common : Common) : Middleman :=
  {| _common := common; backends := []; bad_init := []; not_installed := [];
     troubleshooters := ∅; import_errors := ∅;
     device_cache := {| oid := 0; elems := [] |};
     allocated := 1 |}.

Definition _load_backend_module (reg : Registry) (backend_id : string) : M unit :=
  try_except
    (module <- subscript (BACKEND_MODULES reg) backend_id ;;
     backend <- call module ;;
     r <- call (Backend.init backend) ;;
     if truthy r
     then modify (set_backends (fun l => l ++ [backend]))
     else modify (set_bad_init (fun l => l ++ [backend])))
    (fun e =>
       if is_import_error e
       then modify (set_not_installed (fun l => l ++ [backend_id]))
       else
         self <- get ;;
         modify (set_import_errors
                   <[backend_id := get_exception_as_string (_common self) e]>)) ;;
  try_except
    (routine <- subscript (TROUBLESHOOT_MODULES reg) backend_id ;;
     modify (set_troubleshooters <[backend_id := routine]>))
    (fun e =>
       if is_name_error e
       then ret tt   (* Backend does not have a troubleshooter. *)
       else raise e).

Definition init (reg : Registry) : M unit :=
  for_each (keys (BACKEND_NAMES reg)) (_load_backend_module reg).

(** ** The device cache *)

Definition _reload_device_cache_if_empty (w : World) : M unit :=
  self <- get ;;
  if truthy (PyList (elems (device_cache self)))
  then ret tt
  else
    for_each (backends self) (fun module =>
      let device_list := Backend.get_devices module w in
      match device_list with
      | PyList l =>          (* type(device_list) == list *)
          self <- get ;;
          modify (bind_new_cache (elems (device_cache self) ++ l))
      | _ => ret tt
      end).

Definition reload_device_cache (w : World) : M unit :=
  modify (bind_new_cache []) ;;
  _reload_device_cache_if_empty w.

(** Returns the reference held by [self.device_cache]. *)
Definition get_devices (w : World) : M list_object :=
  _reload_device_cache_if_empty w ;;
  self <- get ;;
  ret (device_cache self).

(** ** Fresh look-ups *)

(** [for x in l: ...] whose body may [return] a value, which ends the loop;
    [None] when the loop runs to its end. *)
Fixpoint for_each_return {A B} (l : list A) (body : A -> M (option B)) : M (option B) :=
  match l with
  | [] => ret None
  | x :: l' =>
      r <- body x ;;
      match r with
      | Some b => ret (Some b)
      | None => for_each_return l' body
      end
  end.

(** [isinstance(device, Backend.DeviceItem)] *)
Definition is_device_item (v : pyval) : bool :=
  match v with
  | PyDeviceItem _ => true
  | _ => false
  end.

Definition get_device_by_name (w : World) (name : string) : M pyval :=
  self <- get ;;
  found <- for_each_return (backends self) (fun backend =>
             device <- call (Backend.get_device_by_name backend w name) ;;
             if is_device_item device then ret (Some device) else ret None) ;;
  match found with
  | Some device => ret device
  | None => ret PyNone
  end.

Definition get_device_by_serial (w : World) (serial : string) : M pyval :=
  self <- get ;;
  found <- for_each_return (backends self) (fun backend =>
             device <- call (Backend.get_device_by_serial backend w serial) ;;
             if is_device_item device then ret (Some device) else ret None) ;;
  match found with
  | Some device => ret device
  | None => ret PyNone
  end.

(** ** Device dictionaries of the bulk operations

    [_get_current_device_option] and [set_bulk_option] read a device as a
    dict: [device["zone_options"]] maps a zone to the list of its options,
    each option a dict with the keys "id", "type" and "colours", and
    optionally "active" and "parameters"; a parameter has "active", "data"
    and "colours". *)

Record Param := {
  param_active : bool;
  param_data : pyval;
  param_colours : list string
}.

Record DeviceOption := {
  opt_id : string;
  opt_type : string;
  opt_active : option bool;               (* absent key: None *)
  opt_colours : list string;
  opt_parameters : option (list Param)    (* absent key: None *)
}.

Record Device := {
  device_name : string;
  device_backend : string;
  device_uid : string;
  device_serial : string;
  zone_options : list (string * list DeviceOption)
}.

(** [d[k]] on a dict kept in insertion order. *)
Fixpoint lookup_key {V} (k : string) (d : list (string * V)) : option V :=
  match d with
  | [] => None
  | (k', v) :: d' => if String.eqb k' k then Some v else lookup_key k d'
  end.

(** The local variables of [_get_current_device_option]. *)
Record locals := {
  option_id : option string;
  option_data : pyval;
  colour_hex : list string;
  found_option : option DeviceOption;
  param : option Param
}.

Definition initial_locals : locals :=
  {| option_id := None; option_data := PyNone; colour_hex := [];
     found_option := None; param := None |}.

(** One turn of [for param in option["parameters"]]. *)
Definition param_step (st : locals) (p : Param) : locals :=
  if param_active p
  then {| option_id := option_id st; option_data := param_data p;
          colour_hex := param_colours p; found_option := found_option st;
          param := Some p |}
  else {| option_id := option_id st; option_data := option_data st;
          colour_hex := colour_hex st; found_option := found_option st;
          param := Some p |}.

(** [for option in device["zone_options"][zone]]: the [break] leaves this
    loop, not the loop over the zones. *)
Fixpoint scan_options (options : list DeviceOption) (st : locals) : locals :=
  match options with
  | [] => st
  | option :: rest =>
      match opt_active option with
      | None => scan_options rest st                     (* continue *)
      | Some active =>
          if negb (String.eqb (opt_type option) "effect")
          then scan_options rest st                      (* continue *)
          else if active
          then
            let st1 := {| option_id := Some (opt_id option);
                          option_data := option_data st;
                          colour_hex := colour_hex st;
                          found_option := Some option;
                          param := param st |} in
            match opt_parameters option with
            | None => scan_options rest st1              (* except KeyError: pass *)
            | Some [] => st1                             (* break *)
            | Some ps => scan_options rest (fold_left param_step ps st1)
            end
          else scan_options rest st
      end
  end.

Fixpoint scan_zones (zone_options : list (string * list DeviceOption))
    (zones : list string) (st : locals) : outcome locals :=
  match zones with
  | [] => Returns st
  | zone :: rest =>
      match lookup_key zone zone_options with
      | None => Raises (Exn KeyError zone)
      | Some options => scan_zones zone_options rest (scan_options options st)
      end
  end.

(** The method neither reads nor writes the instance; it returns the list
    [[option_id, option_data, colour_hex]], whose last component is [None]
    or a list of colours. *)
Definition _get_current_device_option (device : Device) (zone : option string)
  : outcome (option string * pyval * option (list string)) :=
  let zones :=
    match zone with
    | Some z => if truthy (PyStr z) then [z] else keys (zone_options device)
    | None => keys (zone_options device)
    end in
  match scan_zones (zone_options device) zones initial_locals with
  | Raises e => Raises e
  | Returns st =>
      match found_option st with
      | None => Returns (None, PyNone, None)
      | Some found =>
          let colours :=
            match param st with
            | None => opt_colours found
            | Some _ => colour_hex st
            end in
          Returns (option_id st, option_data st, Some colours)
      end
  end.

(** ** Apply to all *)

(** The names bound on an instance: the attributes [__init__] sets and the
    functions of the class body. *)
Definition Middleman_attributes : list string :=
  [ "_dbg"; "_common"; "_"; "backends"; "bad_init"; "not_installed";
    "troubleshooters"; "import_errors"; "device_cache";
    "__init__"; "init"; "get_backend"; "is_backend_running"; "get_versions";
    "_reload_device_cache_if_empty"; "reload_device_cache"; "get_devices";
    "get_device_by_name"; "get_device_by_serial"; "get_device_by_form_factor";
    "get_unsupported_devices"; "troubleshoot"; "restart";
    "_get_current_device_option"; "replay_active_effect"; "set_device_colour";
    "set_bulk_option"; "set_bulk_colour" ].

(** [self.attr] on an instance that binds the names [bound_names]:
    AttributeError for a name that is not bound; [bound] is what the name
    stands for when it is bound. *)
Definition getattr {A} (bound_names : list string) (attr : string) (bound : A) : M A :=
  if bool_decide (attr ∈ bound_names)
  then ret bound
  else raise (Exn AttributeError attr).

(** [while len(colour_hex) < colours_needed: colour_hex.append("#00FF00")] *)
Definition pad_colours (colour_hex : list string) (colours_needed : Z) : list string :=
  colour_hex ++ replicate (Z.to_nat (colours_needed - Z.of_nat (length colour_hex))) "#00FF00".

(** The first option of the zone with the requested id, where the inner
    loop of [set_bulk_option] breaks. *)
Definition find_option (option_id : string) (options : list DeviceOption) : option DeviceOption :=
  List.find (fun option => String.eqb (opt_id option) option_id) options.

Section SetBulkOption.
(** The names the instance binds, and what [self.get_device_all] and
    [self.set_device_state] stand for when they are among them. *)
Variable bound_names : list string.
Variable get_device_all : M (list Device).
Variable set_device_state :
  string -> string -> string -> string -> string -> pyval -> list string -> M pyval.

Definition set_bulk_option_zone (device : Device) (option_id : string)
    (option_data : pyval) (colours_needed : Z) (zone : string) : M unit :=
  match lookup_key zone (zone_options device) with
  | None => raise (Exn KeyError zone)
  | Some options =>
      match find_option option_id options with
      | None => ret tt                                  (* skip: continue *)
      | Some option =>
          let colour_hex := pad_colours (opt_colours option) colours_needed in
          set_state <- getattr bound_names "set_device_state" set_device_state ;;
          result <- set_state (device_backend device) (device_uid device)
                      (device_serial device) zone option_id option_data colour_hex ;;
          ret tt                                        (* the result is only logged *)
      end
  end.

(** The calls of [self._dbg.stdout] only log. [colour_hex] is the list
    object of the option itself, so the padding stays in the device dict;
    padding it again changes nothing. *)
Definition set_bulk_option_on (option_id : string) (option_data : pyval)
    (colours_needed : Z) : M unit :=
  get_all <- getattr bound_names "get_device_all" get_device_all ;;
  devices <- get_all ;;
  for_each devices (fun device =>
    for_each (keys (zone_options device))
      (set_bulk_option_zone device option_id option_data colours_needed)).
End SetBulkOption.

(** [Middleman.set_bulk_option]: the method on an instance of the class as
    it is written. *)
Definition set_bulk_option := set_bulk_option_on Middleman_attributes.

(** The apply-state requests that C7 describes: for every device and every
    zone, in order, one request with the padded colours of the option when
    the zone offers the option, none otherwise. *)
Definition zone_request (option_id : string) (colours_needed : Z) (device : Device)
    (zone : string * list DeviceOption) : option (Device * string * list string) :=
  match find_option option_id zone.2 with
  | Some option => Some (device, zone.1, pad_colours (opt_colours option) colours_needed)
  | None => None
  end.

Definition bulk_requests (option_id : string) (colours_needed : Z)
    (devices : list Device) : list (Device * string * list string) :=
  flat_map (fun device => omap (zone_request option_id colours_needed device)
                            (zone_options device)) devices.

(** * The outcome of one load, as a value

    What the first [try] of [_load_backend_module] decides for one backend
    id, read off the registry; the lemmas below show that the method records
    exactly this. *)

Inductive load_result :=
| Running (b : Backend.t)
| BadInit (b : Backend.t)
| NotInstalled
| ImportFailed (e : exn).

Definition load_failure (e : exn) : load_result :=
  if is_import_error e then NotInstalled else ImportFailed e.

Definition load_result_of (reg : Registry) (backend_id : string) : load_result :=
  match BACKEND_MODULES reg !! backend_id with
  | None => load_failure (Exn KeyError backend_id)
  | Some (Raises e) => load_failure e
  | Some (Returns b) =>
      match Backend.init b with
      | Raises e => load_failure e
      | Returns v => if truthy v then Running b else BadInit b
      end
  end.

Definition record_load (backend_id : string) (r : load_result) (s : Middleman) : Middleman :=
  match r with
  | Running b => set_backends (fun l => l ++ [b]) s
  | BadInit b => set_bad_init (fun l => l ++ [b]) s
  | NotInstalled => set_not_installed (fun l => l ++ [backend_id]) s
  | ImportFailed e =>
      set_import_errors <[backend_id := get_exception_as_string (_common s) e]> s
  end.

Definition record_troubleshooter (reg : Registry) (backend_id : string) (s : Middleman) : Middleman :=
  match TROUBLESHOOT_MODULES reg !! backend_id with
  | Some routine => set_troubleshooters <[backend_id := routine]> s
  | None => s
  end.

Definition load_step (reg : Registry) (s : Middleman) (backend_id : string) : Middleman :=
  record_troubleshooter reg backend_id
    (record_load backend_id (load_result_of reg backend_id) s).

(** The ids the loop of [init] gets to: all of them up to and including the
    first one without a troubleshooting routine. *)
Fixpoint attempted (reg : Registry) (ids : list string) : list string :=
  match ids with
  | [] => []
  | backend_id :: rest =>
      backend_id ::
        match TROUBLESHOOT_MODULES reg !! backend_id with
        | Some _ => attempted reg rest
        | None => []
        end
  end.

Fixpoint loop_outcome (reg : Registry) (ids : list string) : outcome unit :=
  match ids with
  | [] => Returns tt
  | backend_id :: rest =>
      match TROUBLESHOOT_MODULES reg !! backend_id with
      | Some _ => loop_outcome reg rest
      | None => Raises (Exn KeyError backend_id)
      end
  end.

Definition running_backend (reg : Registry) (backend_id : string) : option Backend.t :=
  match load_result_of reg backend_id with
  | Running b => Some b
  | _ => None
  end.

Definition bad_init_backend (reg : Registry) (backend_id : string) : option Backend.t :=
  match load_result_of reg backend_id with
  | BadInit b => Some b
  | _ => None
  end.

Definition not_installed_id (reg : Registry) (backend_id : string) : option string :=
  match load_result_of reg backend_id with
  | NotInstalled => Some backend_id
  | _ => None
  end.

Definition import_error_of (reg : Registry) (backend_id : string) : option exn :=
  match load_result_of reg backend_id with
  | ImportFailed e => Some e
  | _ => None
  end.

(** The registry cut after its first [n] backend ids. *)
Definition truncate_names (n : nat) (reg : Registry) : Registry :=
  {| BACKEND_NAMES := take n (BACKEND_NAMES reg);
     BACKEND_MODULES := BACKEND_MODULES reg;
     TROUBLESHOOT_MODULES := TROUBLESHOOT_MODULES reg |}.

(** The four bins of [init], read in the state it leaves: a backend id (or
    the backend object built for it) is in the bin of [r] and in no other. *)
Definition classified_as (common : Common) (backend_id : string)
    (r : load_result) (s : Middleman) : Prop :=
  match r with
  | Running b =>
      (b ∈ backends s) /\ (b ∉ bad_init s) /\
      (backend_id ∉ not_installed s) /\ import_errors s !! backend_id = None
  | BadInit b =>
      (b ∈ bad_init s) /\ (b ∉ backends s) /\
      (backend_id ∉ not_installed s) /\ import_errors s !! backend_id = None
  | NotInstalled =>
      (backend_id ∈ not_installed s) /\ import_errors s !! backend_id = None
  | ImportFailed e =>
      import_errors s !! backend_id = Some (get_exception_as_string common e) /\
      (backend_id ∉ not_installed s)
  end.

(** * Vocabulary of the cache and look-up claims *)

(** The answer of a backend to [get_devices()], when it is a list. *)
Definition device_list_of (w : World) (b : Backend.t) : option (list DeviceItem) :=
  match Backend.get_devices b w with
  | PyList l => Some l
  | _ => None
  end.

(** The backend answers a look-up with something that is no device. *)
Definition answers_no_device (ask : Backend.t -> outcome pyval) (b : Backend.t) : Prop :=
  exists v, ask b = Returns v /\ is_device_item v = false.

(** What a look-up over the backends [bs], asked in list order, comes to:
    it returns the device of the first backend that answers with one, or
    None when every backend answers and none with a device; it raises what
    a backend raises, when every backend before it answered with no
    device. *)
Definition lookup_outcome (ask : Backend.t -> outcome pyval) (bs : list Backend.t)
    (r : outcome pyval) : Prop :=
  match r with
  | Returns v =>
      (exists (i : nat) (b : Backend.t),
         (bs !! i = Some b) /\ (ask b = Returns v) /\ (is_device_item v = true) /\
         (forall (j : nat) (b' : Backend.t),
            (j < i)%nat -> bs !! j = Some b' -> answers_no_device ask b'))
      \/
      ((v = PyNone) /\ (forall b : Backend.t, b ∈ bs -> answers_no_device ask b))
  | Raises e =>
      exists (i : nat) (b : Backend.t),
        (bs !! i = Some b) /\ (ask b = Raises e) /\
        (forall (j : nat) (b' : Backend.t),
           (j < i)%nat -> bs !! j = Some b' -> answers_no_device ask b')
  end.

(** * Sample backends and registries *)

Definition sample_common : Common :=
  {| get_exception_as_string := fun e => String.append "Traceback: " (exn_arg e) |}.

Definition dummy_keyboard : DeviceItem :=
  {| name := "Dummy Keyboard"; serial := "DUMMY0001"; form_factor_id := "keyboard" |}.
Definition dummy_mouse : DeviceItem :=
  {| name := "Dummy Mouse"; serial := "DUMMY0002"; form_factor_id := "mouse" |}.
Definition dummy_headset : DeviceItem :=
  {| name := "Dummy Headset"; serial := "DUMMY0003"; form_factor_id := "headset" |}.

Definition find_device (key : DeviceItem -> string) (k : string) (l : list DeviceItem) : pyval :=
  match List.find (fun d => String.eqb (key d) k) l with
  | Some d => PyDeviceItem d
  | None => PyNone
  end.

(** A backend that reports [devices w] in the world [w]. *)
Definition sample_backend (id : string) (init_result : outcome pyval)
    (devices : World -> list DeviceItem) : Backend.t :=
  {| Backend.backend_id := id;
     Backend.version := "9.9.9";
     Backend.init := init_result;
     Backend.get_devices := fun w => PyList (devices w);
     Backend.get_device_by_name :=
       fun w k => Returns (find_device name k (devices w));
     Backend.get_device_by_serial :=
       fun w k => Returns (find_device serial k (devices w)) |}.

Definition DummyBackend : Backend.t :=
  sample_backend "dummy" (Returns (PyBool true))
    (fun _ => [dummy_keyboard; dummy_mouse; dummy_headset]).

(** Present, but its [init()] reports failure. *)
Definition IdleBackend : Backend.t :=
  sample_backend "idle" (Returns (PyBool false)) (fun _ => []).

(** Its [init()] raises. *)
Definition BrokenBackend : Backend.t :=
  sample_backend "broken" (Raises (Exn OtherException "dbus")) (fun _ => []).

(** A backend whose [get_devices()] answers with an error string. *)
Definition FaultyBackend : Backend.t :=
  {| Backend.backend_id := "faulty";
     Backend.version := "0.1";
     Backend.init := Returns (PyBool true);
     Backend.get_devices := fun _ => PyStr "daemon not running";
     Backend.get_device_by_name := fun _ _ => Returns (PyStr "daemon not running");
     Backend.get_device_by_serial := fun _ _ => Returns PyNone |}.

(** A backend whose look-ups raise. *)
Definition RaisingBackend : Backend.t :=
  {| Backend.backend_id := "raising";
     Backend.version := "0.2";
     Backend.init := Returns (PyBool true);
     Backend.get_devices := fun _ => PyList [];
     Backend.get_device_by_name := fun _ _ => Raises (Exn OtherException "dbus");
     Backend.get_device_by_serial := fun _ _ => Raises (Exn OtherException "dbus") |}.

(** Reports the mouse from the second world on. *)
Definition HotplugBackend : Backend.t :=
  sample_backend "hotplug" (Returns (PyBool true))
    (fun w => match w with O => [] | S _ => [dummy_mouse] end).

Definition sample_names : list (string * string) :=
  [ ("openrazer", "OpenRazer"); ("dummy", "Dummy Backend");
    ("idle", "Idle Backend"); ("broken", "Broken Backend") ].

Definition sample_modules : gmap string (outcome Backend.t) :=
  <["openrazer" := Raises (Exn ModuleNotFoundError "openrazer")]>
  (<["dummy" := Returns DummyBackend]>
  (<["idle" := Returns IdleBackend]>
  (<["broken" := Returns BrokenBackend]> ∅))).

(** Every backend has a troubleshooting routine. *)
Definition sample_registry : Registry :=
  {| BACKEND_NAMES := sample_names;
     BACKEND_MODULES := sample_modules;
     TROUBLESHOOT_MODULES :=
       <["openrazer" := "openrazer.troubleshoot"]>
       (<["dummy" := "DummyBackend.troubleshoot"]>
       (<["idle" := "IdleBackend.troubleshoot"]>
       (<["broken" := "BrokenBackend.troubleshoot"]> ∅))) |}.

(** The same backends where every construction and [init()] succeeds. *)
Definition healthy_registry : Registry :=
  {| BACKEND_NAMES := sample_names;
     BACKEND_MODULES :=
       <["openrazer" := Returns HotplugBackend]>
       (<["dummy" := Returns DummyBackend]>
       (<["idle" := Returns FaultyBackend]>
       (<["broken" := Returns HotplugBackend]> ∅)));
     TROUBLESHOOT_MODULES := TROUBLESHOOT_MODULES sample_registry |}.

(** Only the first backend has a troubleshooting routine. *)
Definition registry_without_routine : Registry :=
  {| BACKEND_NAMES := sample_names;
     BACKEND_MODULES := sample_modules;
     TROUBLESHOOT_MODULES := <["openrazer" := "openrazer.troubleshoot"]> ∅ |}.

(** * Vocabulary of the active-option claims *)

(** An option that [_get_current_device_option] records when it visits it:
    it has the key "active", its type is "effect" and it is active. *)
Definition is_active_effect (option : DeviceOption) : bool :=
  match opt_active option with
  | None => false
  | Some active => String.eqb (opt_type option) "effect" && active
  end.

(** The option has the key "parameters" with an empty list, the case in
    which the loop over the options of the zone is left by [break]. *)
Definition has_empty_parameters (option : DeviceOption) : bool :=
  match opt_parameters option with
  | Some [] => true
  | _ => false
  end.

(** The state right after an active effect option was recorded. *)
Definition record_option (option : DeviceOption) (st : locals) : locals :=
  {| option_id := Some (opt_id option); option_data := option_data st;
     colour_hex := colour_hex st; found_option := Some option;
     param := param st |}.

(** The options of a zone that the loop over the options gets to: all of
    them up to and including the first active effect option with an empty
    parameter list, after which the loop is left. *)
Fixpoint visited_options (options : list DeviceOption) : list DeviceOption :=
  match options with
  | [] => []
  | option :: rest =>
      option ::
        (if is_active_effect option && has_empty_parameters option
         then []
         else visited_options rest)
  end.

(** The option lists of the zones in scope, in iteration order: the one
    named zone, or all zones when no zone (or the empty string) is given;
    [None] when the device does not have the named zone. *)
Definition scoped_zones (device : Device) (zone : option string)
  : option (list (list DeviceOption)) :=
  match zone with
  | Some z =>
      if truthy (PyStr z)
      then (fun options => [options]) <$> lookup_key z (zone_options device)
      else Some (snd <$> zone_options device)
  | None => Some (snd <$> zone_options device)
  end.

(** All options of the scope, zone after zone, in list order. *)
Definition options_in_order (zone_options : list (string * list DeviceOption))
  : list DeviceOption :=
  concat (snd <$> zone_options).

(** * Sample devices *)

Definition static_option : DeviceOption :=
  {| opt_id := "static"; opt_type := "effect"; opt_active := Some true;
     opt_colours := ["#00FF00"]; opt_parameters := Some [] |}.

Definition spectrum_option : DeviceOption :=
  {| opt_id := "spectrum"; opt_type := "effect"; opt_active := Some true;
     opt_colours := []; opt_parameters := None |}.

Definition wave_option : DeviceOption :=
  {| opt_id := "wave"; opt_type := "effect"; opt_active := Some true;
     opt_colours := [];
     opt_parameters :=
       Some [ {| param_active := false; param_data := PyInt 1; param_colours := [] |};
              {| param_active := true; param_data := PyInt 2;
                 param_colours := ["#FF0000"] |} ] |}.

Definition brightness_option : DeviceOption :=
  {| opt_id := "brightness"; opt_type := "slider"; opt_active := None;
     opt_colours := []; opt_parameters := None |}.

Definition idle_effect_option : DeviceOption :=
  {| opt_id := "breath"; opt_type := "effect"; opt_active := Some false;
     opt_colours := ["#0000FF"]; opt_parameters := Some [] |}.

Definition sample_device (zones : list (string * list DeviceOption)) : Device :=
  {| device_name := "Dummy Keyboard"; device_backend := "dummy";
     device_uid := "0"; device_serial := "DUMMY0001"; zone_options := zones |}.

(** Two active effects in one zone, the first without parameters. *)
Definition two_effects_device : Device :=
  sample_device [("main", [brightness_option; static_option; spectrum_option])].

(** No active effect at all. *)
Definition dark_device : Device :=
  sample_device [("main", [brightness_option; idle_effect_option])].

(** One active effect, with an active parameter. *)
Definition wave_device : Device :=
  sample_device [("main", [brightness_option; idle_effect_option; wave_option])].

(** * The other methods of the class *)

(** [except KeyError] *)
Definition is_key_error (e : exn) : bool :=
  match exn_cls e with
  | KeyError => true
  | _ => false
  end.

(** Returns the backend object, or None. *)
Definition get_backend (backend_id : string) : M (option Backend.t) :=
  self <- get ;;
  for_each_return (backends self) (fun module =>
    if String.eqb (Backend.backend_id module) backend_id
    then ret (Some module)
    else ret None).

Definition is_backend_running (backend_id : string) : M bool :=
  self <- get ;;
  found <- for_each_return (backends self) (fun module =>
             if String.eqb (Backend.backend_id module) backend_id
             then ret (Some true)
             else ret None) ;;
  match found with
  | Some b => ret b
  | None => ret false
  end.

(** [versions = {}], then [versions[module.backend_id] = module.version]
    for every running backend. *)
Definition get_versions : M (gmap string string) :=
  self <- get ;;
  ret (fold_left
         (fun versions module =>
            <[Backend.backend_id module := Backend.version module]> versions)
         (backends self) ∅).

(** A list display or a concatenation creates a list object. *)
Definition new_list (l : list DeviceItem) : M list_object :=
  fun s =>
    (Returns {| oid := allocated s; elems := l |},
     {| _common := _common s; backends := backends s; bad_init := bad_init s;
        not_installed := not_installed s; troubleshooters := troubleshooters s;
        import_errors := import_errors s; device_cache := device_cache s;
        allocated := S (allocated s) |}).

(** [devices = []], filled in place with the cached devices whose
    [form_factor["id"]] is [ff_id]. *)
Definition get_device_by_form_factor (w : World) (ff_id : string) : M list_object :=
  _reload_device_cache_if_empty w ;;
  self <- get ;;
  new_list (List.filter (fun device => String.eqb (form_factor_id device) ff_id)
              (elems (device_cache self))).

Section OtherCapabilities.
(** The capabilities of a backend and the collaborators that the methods
    below call: the devices a backend detects and cannot control ([None]
    when its answer is no list, which list concatenation rejects), its
    [restart()], the call of a troubleshooting routine with the arguments of
    [troubleshoot], and the module [common]. *)
Variable Unsupported : Type.
Variable backend_unsupported_devices : Backend.t -> World -> option (list Unsupported).
Variable backend_restart : Backend.t -> World -> pyval.
Variable call_routine : Troubleshooter -> outcome pyval.
Variable common_module : Common.

(** [unknown_devices = unknown_devices + backend.get_unsupported_devices()];
    the TypeError of the concatenation is one of the other exceptions. *)
Fixpoint unsupported_loop (w : World) (bs : list Backend.t)
    (unknown_devices : list Unsupported) : M (list Unsupported) :=
  match bs with
  | [] => ret unknown_devices
  | backend :: rest =>
      match backend_unsupported_devices backend w with
      | Some l => unsupported_loop w rest (unknown_devices ++ l)
      | None => raise (Exn OtherException "TypeError")
      end
  end.

Definition get_unsupported_devices (w : World) : M (list Unsupported) :=
  self <- get ;;
  unsupported_loop w (backends self) [].

Definition troubleshoot (backend : string) : M pyval :=
  try_except
    (self <- get ;;
     routine <- subscript (troubleshooters self) backend ;;
     call (call_routine routine))
    (fun e =>
       if is_key_error e
       then ret PyNone      (* Troubleshooter not available for this backend *)
       else ret (PyStr (get_exception_as_string common_module e))).

(** Falls off the end, returning None, when no backend has the id. *)
Definition restart (w : World) (backend : string) : M pyval :=
  self <- get ;;
  found <- for_each_return (backends self) (fun module =>
             if String.eqb (Backend.backend_id module) backend
             then ret (Some (backend_restart module w))
             else ret None) ;;
  match found with
  | Some result => ret result
  | None => ret PyNone
  end.
End OtherCapabilities.

(** [print("fixme:replay_active_effect")] and [return]: the rest of the
    body is never reached. *)
Definition replay_active_effect (backend uid zone : string) : M pyval := ret PyNone.

(** [print("fixme:set_device_colour")] and [return]. *)
Definition set_device_colour (device : Device) (zone hex_value : string)
    (colour_pos : Z) : M pyval := ret PyNone.

Section SetBulkColour.
Variable bound_names : list string.
Variable get_device_all : M (list Device).

(** The test [if not option["colours"]: continue] at the end of the inner
    loop changes nothing; the zone is skipped when no option has the id. *)
Definition set_bulk_colour_zone (device : Device) (option_id new_colour_hex : string)
    (zone : string) : M unit :=
  match lookup_key zone (zone_options device) with
  | None => raise (Exn KeyError zone)
  | Some options =>
      match find_option option_id options with
      | None => ret tt                                  (* skip: continue *)
      | Some _ =>
          set_colour <- getattr bound_names "set_device_colour" set_device_colour ;;
          result <- set_colour device zone new_colour_hex 0%Z ;;
          ret tt                                        (* the result is only logged *)
      end
  end.

Definition set_bulk_colour_on (new_colour_hex : string) : M unit :=
  get_all <- getattr bound_names "get_device_all" get_device_all ;;
  devices <- get_all ;;
  for_each devices (fun device =>
    current_option <- getattr bound_names "_get_current_device_option"
                        _get_current_device_option ;;
    current <- call (current_option device None) ;;
    match current.1.1 with
    | None => ret tt                                    (* continue *)
    | Some option_id =>
        if truthy (PyStr option_id)
        then for_each (keys (zone_options device))
               (set_bulk_colour_zone device option_id new_colour_hex)
        else ret tt                                     (* continue *)
    end).
End SetBulkColour.

(** [Middleman.set_bulk_colour] on an instance of the class as it is
    written. *)
Definition set_bulk_colour := set_bulk_colour_on Middleman_attributes.

(** The identity of the cached list is one that was given out: no list
    object created later can share it. *)
Definition cache_allocated (s : Middleman) : Prop :=
  (oid (device_cache s) < allocated s)%nat.

(** A second dummy backend that reuses the id "dummy". *)
Definition OtherDummyBackend : Backend.t :=
  {| Backend.backend_id := "dummy";
     Backend.version := "1.0";
     Backend.init := Returns (PyBool true);
     Backend.get_devices := fun _ => PyList [dummy_mouse];
     Backend.get_device_by_name := fun _ _ => Returns PyNone;
     Backend.get_device_by_serial := fun _ _ => Returns PyNone |}.

(** Sample collaborators of the methods above: every backend but the
    faulty one reports one device it cannot control; the routine of
    "openrazer" returns its findings, that of "dummy" raises KeyError, that
    of "idle" raises another exception. *)
Definition sample_unsupported (b : Backend.t) (w : World) : option (list string) :=
  if String.eqb (Backend.backend_id b) "faulty"
  then None
  else Some [String.append "unknown device of " (Backend.backend_id b)].

Definition sample_call_routine (routine : Troubleshooter) : outcome pyval :=
  if String.eqb routine "openrazer.troubleshoot" then Returns (PyInt 3)
  else if String.eqb routine "DummyBackend.troubleshoot" then Raises (Exn KeyError "PATH")
  else Raises (Exn OtherException "crashed").

Definition sample_restart (b : Backend.t) (w : World) : pyval :=
  PyBool (String.eqb (Backend.backend_id b) "dummy").

(** * Lemmas on loading *)

Lemma load_backend_module_step reg backend_id s :
  _load_backend_module reg backend_id s =
    (match TROUBLESHOOT_MODULES reg !! backend_id with
     | Some _ => Returns tt
     | None => Raises (Exn KeyError backend_id)
     end,
     load_step reg s backend_id).
Proof.
  unfold _load_backend_module, load_step, load_result_of, record_troubleshooter.
  unfold bind at 1. unfold try_except at 1.
  assert (Hts : forall s0,
    try_except
      (routine <- subscript (TROUBLESHOOT_MODULES reg) backend_id;;
       modify (set_troubleshooters <[backend_id:=routine]>))
      (fun e => if is_name_error e then ret tt else raise e) s0 =
    (match TROUBLESHOOT_MODULES reg !! backend_id with
     | Some _ => Returns tt
     | None => Raises (Exn KeyError backend_id)
     end,
     match TROUBLESHOOT_MODULES reg !! backend_id with
     | Some routine => set_troubleshooters <[backend_id:=routine]> s0
     | None => s0
     end)).
  { intros s0. unfold try_except, bind, subscript.
    destruct (TROUBLESHOOT_MODULES reg !! backend_id); reflexivity. }
  unfold bind, subscript, call, load_failure.
  destruct (BACKEND_MODULES reg !! backend_id) as [[b|e]|]; cbn.
  - destruct (Backend.init b) as [v|e]; cbn.
    + destruct (truthy v); cbn; apply Hts.
    + destruct (is_import_error e); cbn; apply Hts.
  - destruct (is_import_error e); cbn; apply Hts.
  - apply Hts.
Qed.

Lemma for_each_load reg ids s :
  for_each ids (_load_backend_module reg) s =
    (loop_outcome reg ids, fold_left (load_step reg) (attempted reg ids) s).
Proof.
  revert s. induction ids as [|backend_id rest IH]; intros s; [reflexivity|].
  cbn [for_each loop_outcome attempted]. unfold bind.
  rewrite load_backend_module_step.
  destruct (TROUBLESHOOT_MODULES reg !! backend_id); cbn [fold_left].
  - apply IH.
  - reflexivity.
Qed.

Lemma init_unfold reg s :
  init reg s =
    (loop_outcome reg (keys (BACKEND_NAMES reg)),
     fold_left (load_step reg) (attempted reg (keys (BACKEND_NAMES reg))) s).
Proof. apply for_each_load. Qed.

(** ** The fields after a run of loads *)

Section Loads.
Variable reg : Registry.

Ltac unfold_step :=
  unfold load_step, record_troubleshooter, record_load, running_backend,
    bad_init_backend, not_installed_id, import_error_of.

Ltac step_cases id :=
  unfold_step;
  destruct (load_result_of reg id);
  destruct (TROUBLESHOOT_MODULES reg !! id).

Lemma load_step_common s id : _common (load_step reg s id) = _common s.
Proof. step_cases id; reflexivity. Qed.

Lemma load_step_cache s id :
  device_cache (load_step reg s id) = device_cache s /\
  allocated (load_step reg s id) = allocated s.
Proof. step_cases id; split; reflexivity. Qed.

Lemma load_step_backends s id :
  backends (load_step reg s id) =
    backends s ++ option_list (running_backend reg id).
Proof. step_cases id; cbn; rewrite ?app_nil_r; reflexivity. Qed.

Lemma load_step_bad_init s id :
  bad_init (load_step reg s id) =
    bad_init s ++ option_list (bad_init_backend reg id).
Proof. step_cases id; cbn; rewrite ?app_nil_r; reflexivity. Qed.

Lemma load_step_not_installed s id :
  not_installed (load_step reg s id) =
    not_installed s ++ option_list (not_installed_id reg id).
Proof. step_cases id; cbn; rewrite ?app_nil_r; reflexivity. Qed.

Lemma load_step_import_errors s id :
  import_errors (load_step reg s id) =
    match import_error_of reg id with
    | Some e => <[id := get_exception_as_string (_common s) e]> (import_errors s)
    | None => import_errors s
    end.
Proof. step_cases id; reflexivity. Qed.

Lemma load_step_troubleshooters s id :
  troubleshooters (load_step reg s id) =
    match TROUBLESHOOT_MODULES reg !! id with
    | Some routine => <[id := routine]> (troubleshooters s)
    | None => troubleshooters s
    end.
Proof. step_cases id; reflexivity. Qed.

Lemma loads_common ids s :
  _common (fold_left (load_step reg) ids s) = _common s.
Proof.
  revert s. induction ids as [|id ids IH]; intros s; cbn; [reflexivity|].
  rewrite IH. apply load_step_common.
Qed.

Lemma loads_cache ids s :
  device_cache (fold_left (load_step reg) ids s) = device_cache s /\
  allocated (fold_left (load_step reg) ids s) = allocated s.
Proof.
  revert s. induction ids as [|id ids IH]; intros s; cbn; [split; reflexivity|].
  destruct (IH (load_step reg s id)) as [-> ->]. apply load_step_cache.
Qed.

Lemma omap_cons_option_list {A B} (f : A -> option B) (x : A) (l : list A) :
  omap f (x :: l) = option_list (f x) ++ omap f l.
Proof. cbn. destruct (f x); reflexivity. Qed.

Lemma loads_backends ids s :
  backends (fold_left (load_step reg) ids s) =
    backends s ++ omap (running_backend reg) ids.
Proof.
  revert s. induction ids as [|id ids IH]; intros s.
  - cbn. by rewrite app_nil_r.
  - cbn [fold_left]. rewrite IH, load_step_backends, omap_cons_option_list.
    by rewrite <- app_assoc.
Qed.

Lemma loads_bad_init ids s :
  bad_init (fold_left (load_step reg) ids s) =
    bad_init s ++ omap (bad_init_backend reg) ids.
Proof.
  revert s. induction ids as [|id ids IH]; intros s.
  - cbn. by rewrite app_nil_r.
  - cbn [fold_left]. rewrite IH, load_step_bad_init, omap_cons_option_list.
    by rewrite <- app_assoc.
Qed.

Lemma loads_not_installed ids s :
  not_installed (fold_left (load_step reg) ids s) =
    not_installed s ++ omap (not_installed_id reg) ids.
Proof.
  revert s. induction ids as [|id ids IH]; intros s.
  - cbn. by rewrite app_nil_r.
  - cbn [fold_left]. rewrite IH, load_step_not_installed, omap_cons_option_list.
    by rewrite <- app_assoc.
Qed.

Lemma loads_import_errors ids s x :
  import_errors (fold_left (load_step reg) ids s) !! x =
    match (if bool_decide (x ∈ ids) then import_error_of reg x else None) with
    | Some e => Some (get_exception_as_string (_common s) e)
    | None => import_errors s !! x
    end.
Proof.
  revert s. induction ids as [|id ids IH]; intros s.
  - cbn. rewrite bool_decide_eq_false_2; [reflexivity | apply not_elem_of_nil].
  - cbn [fold_left]. rewrite IH, load_step_common, load_step_import_errors.
    destruct (decide (x = id)) as [->|Hne].
    + rewrite (bool_decide_eq_true_2 (id ∈ id :: ids)) by apply list_elem_of_here.
      destruct (bool_decide (id ∈ ids)); destruct (import_error_of reg id);
        rewrite ?lookup_insert_eq; reflexivity.
    + assert (Hiff : bool_decide (x ∈ id :: ids) = bool_decide (x ∈ ids)).
      { apply bool_decide_ext. rewrite elem_of_cons. tauto. }
      rewrite Hiff.
      destruct (if bool_decide (x ∈ ids) then import_error_of reg x else None);
        [reflexivity|].
      destruct (import_error_of reg id); [|reflexivity].
      by rewrite lookup_insert_ne.
Qed.

Lemma loads_troubleshooters ids s x :
  troubleshooters (fold_left (load_step reg) ids s) !! x =
    match (if bool_decide (x ∈ ids) then TROUBLESHOOT_MODULES reg !! x else None) with
    | Some routine => Some routine
    | None => troubleshooters s !! x
    end.
Proof.
  revert s. induction ids as [|id ids IH]; intros s.
  - cbn. rewrite bool_decide_eq_false_2; [reflexivity | apply not_elem_of_nil].
  - cbn [fold_left]. rewrite IH, load_step_troubleshooters.
    destruct (decide (x = id)) as [->|Hne].
    + rewrite (bool_decide_eq_true_2 (id ∈ id :: ids)) by apply list_elem_of_here.
      destruct (bool_decide (id ∈ ids)); destruct (TROUBLESHOOT_MODULES reg !! id);
        rewrite ?lookup_insert_eq; reflexivity.
    + assert (Hiff : bool_decide (x ∈ id :: ids) = bool_decide (x ∈ ids)).
      { apply bool_decide_ext. rewrite elem_of_cons. tauto. }
      rewrite Hiff.
      destruct (if bool_decide (x ∈ ids) then TROUBLESHOOT_MODULES reg !! x else None);
        [reflexivity|].
      destruct (TROUBLESHOOT_MODULES reg !! id); [|reflexivity].
      by rewrite lookup_insert_ne.
Qed.
End Loads.

(** ** Which ids the loop reaches *)

Lemma attempted_app reg pre rest :
  (forall x, x ∈ pre -> is_Some (TROUBLESHOOT_MODULES reg !! x)) ->
  attempted reg (pre ++ rest) = pre ++ attempted reg rest.
Proof.
  induction pre as [|x pre IH]; intros Hpre; [reflexivity|].
  cbn. destruct (Hpre x) as [t Ht]; [apply list_elem_of_here|].
  rewrite Ht, IH; [reflexivity|].
  intros y Hy. apply Hpre. by apply list_elem_of_further.
Qed.

Lemma attempted_all reg ids :
  (forall x, x ∈ ids -> is_Some (TROUBLESHOOT_MODULES reg !! x)) ->
  attempted reg ids = ids /\ loop_outcome reg ids = Returns tt.
Proof.
  induction ids as [|x ids IH]; intros Hall; [split; reflexivity|].
  cbn. destruct (Hall x) as [t Ht]; [apply list_elem_of_here|].
  rewrite Ht. destruct IH as [-> ->]; [|split; reflexivity].
  intros y Hy. apply Hall. by apply list_elem_of_further.
Qed.

Lemma attempted_elem_of reg ids x : x ∈ attempted reg ids -> x ∈ ids.
Proof.
  induction ids as [|y ids IH]; cbn; [done|].
  rewrite !elem_of_cons. intros [->|Hx]; [by left|].
  destruct (TROUBLESHOOT_MODULES reg !! y).
  - right. by apply IH.
  - by apply not_elem_of_nil in Hx.
Qed.

Lemma attempted_reaches reg pre backend_id post :
  (forall x, x ∈ pre -> is_Some (TROUBLESHOOT_MODULES reg !! x)) ->
  backend_id ∈ attempted reg (pre ++ backend_id :: post).
Proof.
  intros Hpre. rewrite attempted_app by done. cbn.
  rewrite elem_of_app. right. apply list_elem_of_here.
Qed.

Lemma loop_outcome_first_missing reg pre backend_id post :
  (forall x, x ∈ pre -> is_Some (TROUBLESHOOT_MODULES reg !! x)) ->
  TROUBLESHOOT_MODULES reg !! backend_id = None ->
  loop_outcome reg (pre ++ backend_id :: post) = Raises (Exn KeyError backend_id) /\
  attempted reg (pre ++ backend_id :: post) = pre ++ [backend_id].
Proof.
  intros Hpre Hnone. rewrite attempted_app by done. cbn. rewrite Hnone.
  split; [|reflexivity].
  clear -Hpre Hnone. induction pre as [|x pre IH]; cbn.
  - by rewrite Hnone.
  - destruct (Hpre x) as [t Ht]; [apply list_elem_of_here|]. rewrite Ht.
    apply IH. intros y Hy. apply Hpre. by apply list_elem_of_further.
Qed.

(** ** What a classification says about the registry entry *)

Lemma load_result_running reg backend_id b :
  load_result_of reg backend_id = Running b ->
  BACKEND_MODULES reg !! backend_id = Some (Returns b) /\
  exists v, Backend.init b = Returns v /\ truthy v = true.
Proof.
  unfold load_result_of, load_failure.
  destruct (BACKEND_MODULES reg !! backend_id) as [[b'|e]|];
    [destruct (Backend.init b') as [v|e] eqn:Hinit;
       [destruct (truthy v) eqn:Hv|] | |];
    repeat case_match; intros Heq; inversion Heq; subst; eauto.
Qed.

Lemma load_result_bad_init reg backend_id b :
  load_result_of reg backend_id = BadInit b ->
  BACKEND_MODULES reg !! backend_id = Some (Returns b) /\
  exists v, Backend.init b = Returns v /\ truthy v = false.
Proof.
  unfold load_result_of, load_failure.
  destruct (BACKEND_MODULES reg !! backend_id) as [[b'|e]|];
    [destruct (Backend.init b') as [v|e] eqn:Hinit;
       [destruct (truthy v) eqn:Hv|] | |];
    repeat case_match; intros Heq; inversion Heq; subst; eauto.
Qed.

(** ** Membership in the lists and dicts [init] leaves *)

Section AfterInit.
Variables (reg : Registry) (common : Common).

Local Abbreviation final := (init reg (__init__ common)).2.
Local Abbreviation reached := (attempted reg (keys (BACKEND_NAMES reg))).

Lemma final_eq : final = fold_left (load_step reg) reached (__init__ common).
Proof. by rewrite init_unfold. Qed.

Lemma elem_of_final_backends b :
  b ∈ backends final <->
  exists backend_id, backend_id ∈ reached /\ load_result_of reg backend_id = Running b.
Proof.
  rewrite final_eq, loads_backends. cbn. rewrite list_elem_of_omap.
  unfold running_backend. split; intros (x & Hx & Hb); exists x; split; try done.
  - by destruct (load_result_of reg x); simplify_eq.
  - by rewrite Hb.
Qed.

Lemma elem_of_final_bad_init b :
  b ∈ bad_init final <->
  exists backend_id, backend_id ∈ reached /\ load_result_of reg backend_id = BadInit b.
Proof.
  rewrite final_eq, loads_bad_init. cbn. rewrite list_elem_of_omap.
  unfold bad_init_backend. split; intros (x & Hx & Hb); exists x; split; try done.
  - by destruct (load_result_of reg x); simplify_eq.
  - by rewrite Hb.
Qed.

Lemma elem_of_final_not_installed backend_id :
  backend_id ∈ not_installed final <->
  backend_id ∈ reached /\ load_result_of reg backend_id = NotInstalled.
Proof.
  rewrite final_eq, loads_not_installed. cbn. rewrite list_elem_of_omap.
  unfold not_installed_id. split.
  - intros (x & Hx & Hb). destruct (load_result_of reg x) eqn:Hl; simplify_eq. done.
  - intros [Hx Hl]. exists backend_id. by rewrite Hl.
Qed.

Lemma final_import_errors backend_id :
  import_errors final !! backend_id =
    if bool_decide (backend_id ∈ reached)
    then get_exception_as_string common <$> import_error_of reg backend_id
    else None.
Proof.
  rewrite final_eq, loads_import_errors. cbn.
  destruct (bool_decide (backend_id ∈ reached)); [|apply lookup_empty].
  destruct (import_error_of reg backend_id); [reflexivity | apply lookup_empty].
Qed.

Lemma final_troubleshooters backend_id :
  troubleshooters final !! backend_id =
    if bool_decide (backend_id ∈ reached)
    then TROUBLESHOOT_MODULES reg !! backend_id
    else None.
Proof.
  rewrite final_eq, loads_troubleshooters. cbn.
  destruct (bool_decide (backend_id ∈ reached)); [|apply lookup_empty].
  destruct (TROUBLESHOOT_MODULES reg !! backend_id); [reflexivity | apply lookup_empty].
Qed.
End AfterInit.

(** Every id the loop reaches ends in the bin of its own load result. *)
Lemma reached_classified reg common backend_id :
  backend_id ∈ attempted reg (keys (BACKEND_NAMES reg)) ->
  classified_as common backend_id (load_result_of reg backend_id)
    (init reg (__init__ common)).2.
Proof.
  intros Hin. unfold classified_as.
  destruct (load_result_of reg backend_id) as [b|b| |e] eqn:Hload.
  - split; [apply elem_of_final_backends; eauto|].
    split; [|split].
    + rewrite elem_of_final_bad_init. intros (x & _ & Hx).
      apply load_result_bad_init in Hx as (_ & v & Hv & Hf).
      apply load_result_running in Hload as (_ & v' & Hv' & Ht). congruence.
    + rewrite elem_of_final_not_installed. intros [_ ?]. congruence.
    + rewrite final_import_errors. unfold import_error_of. rewrite Hload.
      by destruct (bool_decide _).
  - split; [apply elem_of_final_bad_init; eauto|].
    split; [|split].
    + rewrite elem_of_final_backends. intros (x & _ & Hx).
      apply load_result_running in Hx as (_ & v & Hv & Hf).
      apply load_result_bad_init in Hload as (_ & v' & Hv' & Ht). congruence.
    + rewrite elem_of_final_not_installed. intros [_ ?]. congruence.
    + rewrite final_import_errors. unfold import_error_of. rewrite Hload.
      by destruct (bool_decide _).
  - split; [by apply elem_of_final_not_installed|].
    rewrite final_import_errors. unfold import_error_of. rewrite Hload.
    by destruct (bool_decide _).
  - split.
    + rewrite final_import_errors, bool_decide_eq_true_2 by done.
      unfold import_error_of. by rewrite Hload.
    + rewrite elem_of_final_not_installed. intros [_ ?]. congruence.
Qed.

Lemma backend_not_recorded_when_init_raises reg common b e :
  Backend.init b = Raises e ->
  (b ∉ backends (init reg (__init__ common)).2) /\
  (b ∉ bad_init (init reg (__init__ common)).2).
Proof.
  intros Hinit. split.
  - rewrite elem_of_final_backends. intros (x & _ & Hx).
    apply load_result_running in Hx as (_ & v & Hv & _). congruence.
  - rewrite elem_of_final_bad_init. intros (x & _ & Hx).
    apply load_result_bad_init in Hx as (_ & v & Hv & _). congruence.
Qed.

Lemma keys_truncate_names n reg :
  keys (BACKEND_NAMES (truncate_names n reg)) = take n (keys (BACKEND_NAMES reg)).
Proof. unfold keys. cbn. apply fmap_take. Qed.

(** The first id without a troubleshooting routine splits the ids. *)
Lemma first_missing_routine reg ids :
  (exists backend_id, backend_id ∈ ids /\ TROUBLESHOOT_MODULES reg !! backend_id = None) ->
  exists pre backend_id post,
    ids = pre ++ backend_id :: post /\
    (forall x, x ∈ pre -> is_Some (TROUBLESHOOT_MODULES reg !! x)) /\
    TROUBLESHOOT_MODULES reg !! backend_id = None.
Proof.
  induction ids as [|y ids IH]; intros (x & Hx & Hnone).
  - by apply not_elem_of_nil in Hx.
  - destruct (TROUBLESHOOT_MODULES reg !! y) as [t|] eqn:Hy.
    + apply elem_of_cons in Hx as [->|Hx]; [congruence|].
      destruct IH as (pre & z & post & -> & Hpre & Hz); [eauto|].
      exists (y :: pre), z, post. split; [reflexivity|]. split; [|done].
      intros w Hw. apply elem_of_cons in Hw as [->|Hw]; [eauto | by apply Hpre].
    + exists [], y, ids. split; [reflexivity|]. split; [|done].
      intros w Hw. by apply not_elem_of_nil in Hw.
Qed.

(** * Backend loading: the claims *)

(** For a backend id that the loop of [init()] gets to (every id before
    it has a troubleshooting routine), the load attempt ends in exactly one
    bin: construction raising ImportError or ModuleNotFoundError puts the id
    in [not_installed]; any other exception of the construction or of the
    backend's [init()] maps the id to the formatted diagnostic in
    [import_errors]; a falsy result of [init()] puts the backend object in
    [bad_init]; a truthy result puts it in [backends], and nothing else gets
    into [backends]. *)
Theorem init_classifies_each_load reg common pre backend_id post :
  keys (BACKEND_NAMES reg) = pre ++ backend_id :: post ->
  (forall x, x ∈ pre -> is_Some (TROUBLESHOOT_MODULES reg !! x)) ->
  let s := (init reg (__init__ common)).2 in
  (forall e,
     BACKEND_MODULES reg !! backend_id = Some (Raises e) ->
     is_import_error e = true ->
     classified_as common backend_id NotInstalled s) /\
  (forall e,
     BACKEND_MODULES reg !! backend_id = Some (Raises e) ->
     is_import_error e = false ->
     classified_as common backend_id (ImportFailed e) s) /\
  (forall b e,
     BACKEND_MODULES reg !! backend_id = Some (Returns b) ->
     Backend.init b = Raises e ->
     is_import_error e = false ->
     classified_as common backend_id (ImportFailed e) s /\
     (b ∉ backends s) /\ (b ∉ bad_init s)) /\
  (forall b v,
     BACKEND_MODULES reg !! backend_id = Some (Returns b) ->
     Backend.init b = Returns v ->
     truthy v = false ->
     classified_as common backend_id (BadInit b) s) /\
  (forall b v,
     BACKEND_MODULES reg !! backend_id = Some (Returns b) ->
     Backend.init b = Returns v ->
     truthy v = true ->
     classified_as common backend_id (Running b) s) /\
  (forall b,
     b ∈ backends s ->
     exists v, Backend.init b = Returns v /\ truthy v = true).
Proof.
  intros Hkeys Hpre s.
  assert (Hin : backend_id ∈ attempted reg (keys (BACKEND_NAMES reg))).
  { rewrite Hkeys. by apply attempted_reaches. }
  pose proof (reached_classified reg common backend_id Hin) as Hcl.
  fold s in Hcl. unfold load_result_of, load_failure in Hcl.
  split; [|split; [|split; [|split; [|split]]]].
  - intros e He Himp. by rewrite He, Himp in Hcl.
  - intros e He Himp. by rewrite He, Himp in Hcl.
  - intros b e Hb Hinit Himp. rewrite Hb, Hinit, Himp in Hcl.
    split; [exact Hcl|].
    eapply backend_not_recorded_when_init_raises; eassumption.
  - intros b v Hb Hinit Hv. by rewrite Hb, Hinit, Hv in Hcl.
  - intros b v Hb Hinit Hv. by rewrite Hb, Hinit, Hv in Hcl.
  - intros b Hb. apply elem_of_final_backends in Hb as (x & _ & Hx).
    apply load_result_running in Hx as (_ & Hv). exact Hv.
Qed.

Lemma init_classifies_each_load_witness :
  classified_as sample_common "dummy" (Running DummyBackend)
    (init sample_registry (__init__ sample_common)).2.
Proof.
  destruct (init_classifies_each_load sample_registry sample_common
              ["openrazer"] "dummy" ["idle"; "broken"])
    as (_ & _ & _ & _ & Hrunning & _).
  - reflexivity.
  - intros x Hx. apply list_elem_of_singleton in Hx. subst x.
    exists "openrazer.troubleshoot". reflexivity.
  - apply (Hrunning DummyBackend (PyBool true)); reflexivity.
Defined.

(** C1 fails on the code. In [registry_without_routine] the backend
    "dummy" has no troubleshooting routine: the lookup after its load
    raises KeyError, which the handler for NameError (with the comment
    "Backend does not have a troubleshooter") does not catch, and [init()]
    ends there. The registered backends "idle", whose [init()] returns
    False, and "broken", whose [init()] raises, are never loaded: "idle" is
    not appended to [bad_init] and "broken" gets no entry in
    [import_errors]. *)
Theorem init_leaves_later_backends_unclassified :
  let r := init registry_without_routine (__init__ sample_common) in
  keys (BACKEND_NAMES registry_without_routine)
    = ["openrazer"; "dummy"; "idle"; "broken"] /\
  BACKEND_MODULES registry_without_routine !! "idle" = Some (Returns IdleBackend) /\
  Backend.init IdleBackend = Returns (PyBool false) /\
  BACKEND_MODULES registry_without_routine !! "broken" = Some (Returns BrokenBackend) /\
  Backend.init BrokenBackend = Raises (Exn OtherException "dbus") /\
  TROUBLESHOOT_MODULES registry_without_routine !! "dummy" = None /\
  r.1 = Raises (Exn KeyError "dummy") /\
  bad_init r.2 = [] /\
  import_errors r.2 = ∅ /\
  not_installed r.2 = ["openrazer"] /\
  backends r.2 = [DummyBackend].
Proof.
  cbv zeta. repeat (match goal with |- _ /\ _ => split end); vm_compute; reflexivity.
Qed.

(** X24. Two load failures the classification also covers: a backend id without
    an entry in [BACKEND_MODULES] (the KeyError is an import error), and an
    ImportError raised by the backend's [init()] (not installed). *)
Lemma init_classifies_remaining_failures reg common pre backend_id post :
  keys (BACKEND_NAMES reg) = pre ++ backend_id :: post ->
  (forall x, x ∈ pre -> is_Some (TROUBLESHOOT_MODULES reg !! x)) ->
  let s := (init reg (__init__ common)).2 in
  (BACKEND_MODULES reg !! backend_id = None ->
   classified_as common backend_id (ImportFailed (Exn KeyError backend_id)) s) /\
  (forall b e,
     BACKEND_MODULES reg !! backend_id = Some (Returns b) ->
     Backend.init b = Raises e ->
     is_import_error e = true ->
     classified_as common backend_id NotInstalled s).
Proof.
  intros Hkeys Hpre s.
  assert (Hin : backend_id ∈ attempted reg (keys (BACKEND_NAMES reg))).
  { rewrite Hkeys. by apply attempted_reaches. }
  pose proof (reached_classified reg common backend_id Hin) as Hcl.
  fold s in Hcl. unfold load_result_of, load_failure in Hcl. split.
  - intros Hnone. by rewrite Hnone in Hcl.
  - intros b e Hb Hinit Himp. by rewrite Hb, Hinit, Himp in Hcl.
Qed.

Lemma loop_outcome_routines reg reg' ids :
  TROUBLESHOOT_MODULES reg' = TROUBLESHOOT_MODULES reg ->
  loop_outcome reg' ids = loop_outcome reg ids /\
  attempted reg' ids = attempted reg ids.
Proof.
  intros Hts. induction ids as [|x ids [IHo IHa]]; [by split|].
  cbn. by rewrite Hts, IHo, IHa.
Qed.

Lemma loop_outcome_returns reg ids :
  loop_outcome reg ids = Returns tt ->
  attempted reg ids = ids /\
  forall x, x ∈ ids -> is_Some (TROUBLESHOOT_MODULES reg !! x).
Proof.
  induction ids as [|x ids IH]; cbn.
  - intros _. split; [done|]. intros x Hx. by apply not_elem_of_nil in Hx.
  - destruct (TROUBLESHOOT_MODULES reg !! x) as [t|] eqn:Hx; [|done].
    intros Hout. destruct (IH Hout) as [-> Hall]. split; [done|].
    intros y Hy. apply elem_of_cons in Hy as [->|Hy]; [by eexists | by apply Hall].
Qed.

(** C2. After [init()] has returned, every registered backend id was loaded
    and is in the bin that its own registry entry decides, whatever the
    entries of the other ids did: not installed or import error for what
    the construction or the backend's [init()] raised, bad init or running
    for what [init()] returned. And no exception of a construction or of
    an [init()] can keep [init()] from returning: a registry with the same
    ids and the same troubleshooting routines, and any constructors at all,
    returns as well. *)
Theorem init_isolates_backend_failures reg common backend_id :
  (init reg (__init__ common)).1 = Returns tt ->
  backend_id ∈ keys (BACKEND_NAMES reg) ->
  classified_as common backend_id
    match BACKEND_MODULES reg !! backend_id with
    | None => ImportFailed (Exn KeyError backend_id)
    | Some (Raises e) => if is_import_error e then NotInstalled else ImportFailed e
    | Some (Returns b) =>
        match Backend.init b with
        | Raises e => if is_import_error e then NotInstalled else ImportFailed e
        | Returns v => if truthy v then Running b else BadInit b
        end
    end
    (init reg (__init__ common)).2 /\
  (forall reg',
     keys (BACKEND_NAMES reg') = keys (BACKEND_NAMES reg) ->
     TROUBLESHOOT_MODULES reg' = TROUBLESHOOT_MODULES reg ->
     (init reg' (__init__ common)).1 = Returns tt).
Proof.
  intros Hreturns Hin. rewrite init_unfold in Hreturns. cbn [fst] in Hreturns.
  destruct (loop_outcome_returns reg _ Hreturns) as [Hatt Hall]. split.
  - pose proof (reached_classified reg common backend_id) as Hcl.
    rewrite Hatt in Hcl. specialize (Hcl Hin).
    unfold load_result_of, load_failure in Hcl.
    destruct (BACKEND_MODULES reg !! backend_id) as [[b|e]|]; exact Hcl.
  - intros reg' Hkeys Hts. rewrite init_unfold, Hkeys. cbn [fst].
    destruct (loop_outcome_routines reg reg' (keys (BACKEND_NAMES reg)) Hts)
      as [-> _].
    exact Hreturns.
Qed.

Lemma sample_routines_complete x :
  x ∈ keys (BACKEND_NAMES sample_registry) ->
  is_Some (TROUBLESHOOT_MODULES sample_registry !! x).
Proof.
  cbn. rewrite !elem_of_cons.
  intros [->|[->|[->|[->|Hx]]]]; [by eexists..|].
  by apply not_elem_of_nil in Hx.
Qed.

Lemma init_isolates_backend_failures_witness :
  classified_as sample_common "dummy" (Running DummyBackend)
    (init sample_registry (__init__ sample_common)).2 /\
  classified_as sample_common "broken"
    (ImportFailed (Exn OtherException "dbus"))
    (init sample_registry (__init__ sample_common)).2.
Proof.
  split.
  - refine (proj1 (init_isolates_backend_failures sample_registry sample_common
                     "dummy" _ _)); [reflexivity|].
    cbn. rewrite !elem_of_cons. tauto.
  - refine (proj1 (init_isolates_backend_failures sample_registry sample_common
                     "broken" _ _)); [reflexivity|].
    cbn. rewrite !elem_of_cons. tauto.
Defined.

(** In the sample registry three of the four loads fail, each in its own
    way, and the fourth backend runs all the same. *)
Example init_of_the_sample_registry :
  let r := init sample_registry (__init__ sample_common) in
  r.1 = Returns tt /\
  not_installed r.2 = ["openrazer"] /\
  backends r.2 = [DummyBackend] /\
  bad_init r.2 = [IdleBackend] /\
  import_errors r.2 !! "broken" = Some "Traceback: dbus".
Proof. cbv zeta. repeat split; reflexivity. Qed.

(** C8 as stated fails: the backend "openrazer" of the sample registry is
    classified as not installed, is not among the running backends, and
    still gets its entry in [troubleshooters]. *)
Lemma troubleshooter_of_not_installed_backend :
  let s := (init sample_registry (__init__ sample_common)).2 in
  BACKEND_MODULES sample_registry !! "openrazer"
    = Some (Raises (Exn ModuleNotFoundError "openrazer")) /\
  not_installed s = ["openrazer"] /\
  backends s = [DummyBackend] /\
  troubleshooters s !! "openrazer" = Some "openrazer.troubleshoot".
Proof. cbv zeta. repeat split; reflexivity. Qed.

(** C8, amended. [init()] maps a backend id to its troubleshooting routine
    whenever a routine is registered for it and the loop gets to the id,
    whichever way the load of the backend ended (running, not installed, bad
    init or import error); and [troubleshooters] holds nothing but the
    registered routines of registered ids. *)
Theorem init_registers_every_routine reg common pre backend_id post routine :
  keys (BACKEND_NAMES reg) = pre ++ backend_id :: post ->
  (forall x, x ∈ pre -> is_Some (TROUBLESHOOT_MODULES reg !! x)) ->
  TROUBLESHOOT_MODULES reg !! backend_id = Some routine ->
  let s := (init reg (__init__ common)).2 in
  troubleshooters s !! backend_id = Some routine /\
  (forall x t, troubleshooters s !! x = Some t ->
     x ∈ keys (BACKEND_NAMES reg) /\ TROUBLESHOOT_MODULES reg !! x = Some t).
Proof.
  intros Hkeys Hpre Hroutine s. unfold s. split.
  - rewrite final_troubleshooters, bool_decide_eq_true_2; [done|].
    rewrite Hkeys. by apply attempted_reaches.
  - intros x t. rewrite final_troubleshooters. case_bool_decide as Hx; [|done].
    intros Ht. split; [|done]. by eapply attempted_elem_of.
Qed.

Lemma init_registers_every_routine_witness :
  troubleshooters (init sample_registry (__init__ sample_common)).2 !! "broken"
    = Some "BrokenBackend.troubleshoot".
Proof.
  refine (proj1 (init_registers_every_routine sample_registry sample_common
                   ["openrazer"; "dummy"; "idle"] "broken" []
                   "BrokenBackend.troubleshoot" _ _ _)).
  - reflexivity.
  - intros x Hx. apply sample_routines_complete. cbn.
    rewrite !elem_of_cons in Hx. rewrite !elem_of_cons.
    destruct Hx as [->|[->|[->|Hx]]]; [tauto..|].
    by apply not_elem_of_nil in Hx.
  - reflexivity.
Defined.

Lemma take_through pre (x : string) post :
  take (S (length pre)) (pre ++ x :: post) = pre ++ [x].
Proof. induction pre as [|y pre IH]; cbn; [reflexivity | by rewrite <- IH]. Qed.

Lemma truncate_names_loop_outcome n reg ids :
  loop_outcome (truncate_names n reg) ids = loop_outcome reg ids.
Proof. induction ids as [|x ids IH]; cbn; [reflexivity | by rewrite IH]. Qed.

Lemma truncate_names_attempted n reg ids :
  attempted (truncate_names n reg) ids = attempted reg ids.
Proof. induction ids as [|x ids IH]; cbn; [reflexivity | by rewrite IH]. Qed.

Lemma truncate_names_loads n reg ids s :
  fold_left (load_step (truncate_names n reg)) ids s
    = fold_left (load_step reg) ids s.
Proof.
  revert s. induction ids as [|x ids IH]; intros s; cbn; [reflexivity|].
  by rewrite IH.
Qed.

(** C9. In a registry where some backend id has no troubleshooting routine,
    [init()] raises KeyError at the first such id: the lookup
    [TROUBLESHOOT_MODULES[backend_id]] raises it and the handler only
    catches NameError. The ids after it are never loaded: [init()] ends as
    it does on the registry cut after that id, and they are in no bin. *)
Theorem init_raises_without_troubleshooter reg common :
  (exists x, x ∈ keys (BACKEND_NAMES reg) /\ TROUBLESHOOT_MODULES reg !! x = None) ->
  exists pre backend_id post,
    keys (BACKEND_NAMES reg) = pre ++ backend_id :: post /\
    TROUBLESHOOT_MODULES reg !! backend_id = None /\
    (init reg (__init__ common)).1 = Raises (Exn KeyError backend_id) /\
    init reg (__init__ common)
      = init (truncate_names (S (length pre)) reg) (__init__ common) /\
    (forall x, x ∈ post -> x ∉ pre ++ [backend_id] ->
       let s := (init reg (__init__ common)).2 in
       (x ∉ not_installed s) /\ import_errors s !! x = None /\
       troubleshooters s !! x = None).
Proof.
  intros Hmissing.
  destruct (first_missing_routine reg _ Hmissing)
    as (pre & backend_id & post & Hkeys & Hpre & Hnone).
  exists pre, backend_id, post.
  destruct (loop_outcome_first_missing reg pre backend_id post Hpre Hnone)
    as [Hout Hatt].
  destruct (loop_outcome_first_missing reg pre backend_id [] Hpre Hnone)
    as [Hout0 Hatt0].
  split; [done|]. split; [done|]. split; [|split].
  - by rewrite init_unfold, Hkeys.
  - rewrite !init_unfold, keys_truncate_names, Hkeys, take_through.
    rewrite truncate_names_loop_outcome, truncate_names_attempted,
      truncate_names_loads.
    by rewrite Hout, Hatt, Hout0, Hatt0.
  - intros x Hx Hfresh s. unfold s.
    assert (Hnot : x ∉ attempted reg (keys (BACKEND_NAMES reg)))
      by (by rewrite Hkeys, Hatt).
    split; [|split].
    + rewrite elem_of_final_not_installed. tauto.
    + by rewrite final_import_errors, bool_decide_eq_false_2.
    + by rewrite final_troubleshooters, bool_decide_eq_false_2.
Qed.

Lemma init_raises_without_troubleshooter_witness :
  exists pre backend_id post,
    keys (BACKEND_NAMES registry_without_routine) = pre ++ backend_id :: post /\
    TROUBLESHOOT_MODULES registry_without_routine !! backend_id = None /\
    (init registry_without_routine (__init__ sample_common)).1
      = Raises (Exn KeyError backend_id) /\
    init registry_without_routine (__init__ sample_common)
      = init (truncate_names (S (length pre)) registry_without_routine)
          (__init__ sample_common) /\
    (forall x, x ∈ post -> x ∉ pre ++ [backend_id] ->
       let s := (init registry_without_routine (__init__ sample_common)).2 in
       (x ∉ not_installed s) /\ import_errors s !! x = None /\
       troubleshooters s !! x = None).
Proof.
  apply (init_raises_without_troubleshooter registry_without_routine sample_common).
  exists "idle". split; [|reflexivity].
  cbn. rewrite !elem_of_cons. tauto.
Defined.

(** On that registry the KeyError comes at "dummy": the backend was loaded
    and is running, its routine is missing, "idle" and "broken" were never
    constructed. *)
Example init_without_routine_stops_at_dummy :
  let r := init registry_without_routine (__init__ sample_common) in
  r.1 = Raises (Exn KeyError "dummy") /\
  not_installed r.2 = ["openrazer"] /\
  backends r.2 = [DummyBackend] /\
  bad_init r.2 = [] /\
  import_errors r.2 !! "broken" = None.
Proof. cbv zeta. repeat split; reflexivity. Qed.

(** The running backends are in registration order. *)
Lemma init_backends_in_registration_order reg common :
  backends (init reg (__init__ common)).2
    = omap (running_backend reg) (attempted reg (keys (BACKEND_NAMES reg))).
Proof. rewrite init_unfold. cbn [snd]. by rewrite loads_backends. Qed.

(** * The device cache: the claims *)

Lemma populate_loop w bs s :
  exists s',
    for_each bs (fun module =>
      match Backend.get_devices module w with
      | PyList l =>
          self <- get ;;
          modify (bind_new_cache (elems (device_cache self) ++ l))
      | _ => ret tt
      end) s = (Returns tt, s') /\
    elems (device_cache s')
      = elems (device_cache s) ++ concat (omap (device_list_of w) bs) /\
    backends s' = backends s.
Proof.
  revert s. induction bs as [|b bs IH]; intros s.
  - exists s. cbn. by rewrite app_nil_r.
  - cbn [for_each omap list_omap]. unfold bind at 1.
    unfold device_list_of at 1.
    destruct (Backend.get_devices b w) as [| | | |l|] eqn:Hb; cbn [ret];
      try exact (IH s).
    destruct (IH (bind_new_cache (elems (device_cache s) ++ l) s))
      as (s' & Hrun & He & Hbs).
    exists s'. unfold bind, get, modify. cbn [fst snd].
    split; [exact Hrun|]. split; [|exact Hbs].
    rewrite He. cbn. by rewrite app_assoc.
Qed.

Lemma reload_when_empty w s :
  elems (device_cache s) = [] ->
  exists s',
    _reload_device_cache_if_empty w s = (Returns tt, s') /\
    elems (device_cache s') = concat (omap (device_list_of w) (backends s)) /\
    backends s' = backends s.
Proof.
  intros Hempty.
  destruct (populate_loop w (backends s) s) as (s' & Hrun & He & Hbs).
  exists s'. split; [|split; [|exact Hbs]].
  - unfold _reload_device_cache_if_empty. unfold bind at 1. unfold get at 1.
    rewrite Hempty. cbn [truthy]. rewrite bool_decide_eq_true_2 by done.
    exact Hrun.
  - by rewrite He, Hempty.
Qed.

Lemma reload_when_loaded w s :
  elems (device_cache s) <> [] ->
  _reload_device_cache_if_empty w s = (Returns tt, s).
Proof.
  intros Hloaded.
  unfold _reload_device_cache_if_empty. unfold bind at 1. unfold get at 1.
  cbn [truthy]. by rewrite bool_decide_eq_false_2.
Qed.

(** C10. When the cache is empty, [_reload_device_cache_if_empty] returns
    without raising and leaves in the cache the concatenation, in the order
    of the running backends, of the answers to [get_devices()] that are
    lists; an answer that is no list (an error string, None) adds nothing. *)
Theorem reload_skips_non_list_answers w s :
  elems (device_cache s) = [] ->
  let r := _reload_device_cache_if_empty w s in
  r.1 = Returns tt /\
  elems (device_cache r.2) = concat (omap (device_list_of w) (backends s)) /\
  backends r.2 = backends s.
Proof.
  intros Hempty r. subst r.
  destruct (reload_when_empty w s Hempty) as (s' & -> & He & Hbs). by cbn.
Qed.

Lemma reload_skips_non_list_answers_witness :
  let s := (init healthy_registry (__init__ sample_common)).2 in
  let r := _reload_device_cache_if_empty 1%nat s in
  r.1 = Returns tt /\
  elems (device_cache r.2) = concat (omap (device_list_of 1%nat) (backends s)) /\
  backends r.2 = backends s.
Proof.
  intros s. apply (reload_skips_non_list_answers 1%nat s). reflexivity.
Defined.

(** The faulty backend, third of the four running ones, answers with an
    error string and leaves no trace in the cache. *)
Example reload_with_a_faulty_backend :
  let s := (init healthy_registry (__init__ sample_common)).2 in
  backends s = [HotplugBackend; DummyBackend; FaultyBackend; HotplugBackend] /\
  Backend.get_devices FaultyBackend 1%nat = PyStr "daemon not running" /\
  _reload_device_cache_if_empty 1%nat s
    = (Returns tt,
       bind_new_cache [dummy_mouse; dummy_keyboard; dummy_mouse; dummy_headset; dummy_mouse]
         (bind_new_cache [dummy_mouse; dummy_keyboard; dummy_mouse; dummy_headset]
            (bind_new_cache [dummy_mouse] s))).
Proof. cbv zeta. repeat (match goal with |- _ /\ _ => split end); vm_compute; reflexivity. Qed.

Lemma get_devices_eq w s :
  get_devices w s =
    let r := _reload_device_cache_if_empty w s in
    match r.1 with
    | Returns _ => (Returns (device_cache r.2), r.2)
    | Raises e => (Raises e, r.2)
    end.
Proof.
  unfold get_devices. unfold bind at 1.
  destruct (_reload_device_cache_if_empty w s) as [[[]|e] s']; reflexivity.
Qed.

(** C3. [get_devices()] returns the reference held in [device_cache]. A
    cache that is not empty is returned as it is, and the instance is left
    untouched, whatever the backends would answer; an empty cache is first
    populated from every running backend. Hence a second call, in whatever
    world, after a call that left the cache non-empty returns the same list
    object (same identity, same elements) and changes nothing. *)
Theorem get_devices_lazy_and_stable w w' s :
  let first := get_devices w s in
  let second := get_devices w' first.2 in
  first.1 = Returns (device_cache first.2) /\
  (elems (device_cache s) <> [] -> first.2 = s) /\
  (elems (device_cache s) = [] ->
     elems (device_cache first.2)
       = concat (omap (device_list_of w) (backends s))) /\
  (elems (device_cache first.2) <> [] -> second = first).
Proof.
  intros first second.
  assert (Hfirst : first.1 = Returns (device_cache first.2)).
  { unfold first. rewrite get_devices_eq. cbv zeta.
    destruct (decide (elems (device_cache s) = [])) as [Hempty|Hloaded].
    - by destruct (reload_when_empty w s Hempty) as (s' & -> & _).
    - by rewrite reload_when_loaded. }
  split; [exact Hfirst|]. split; [|split].
  - intros Hloaded. unfold first.
    by rewrite get_devices_eq, reload_when_loaded.
  - intros Hempty. unfold first. rewrite get_devices_eq. cbv zeta.
    by destruct (reload_when_empty w s Hempty) as (s' & -> & He & _).
  - intros Hloaded. unfold second.
    rewrite get_devices_eq, reload_when_loaded by done. cbn.
    rewrite <- Hfirst. by destruct first.
Qed.

(** The stability needs the first call to leave the cache non-empty: with
    no device plugged in at the first call, the second call populates again
    and returns another list object. *)
Example get_devices_repopulates_an_empty_cache :
  let s := set_backends (fun _ => [HotplugBackend]) (__init__ sample_common) in
  let first := get_devices 0%nat s in
  let second := get_devices 1%nat first.2 in
  first.1 = Returns {| oid := 1; elems := [] |} /\
  second.1 = Returns {| oid := 2; elems := [dummy_mouse] |}.
Proof. cbv zeta. split; reflexivity. Qed.

(** * Fresh look-ups: the claim *)

Lemma lookup_loop (ask : Backend.t -> outcome pyval) bs s :
  exists o,
    for_each_return bs (fun backend =>
      device <- call (ask backend) ;;
      if is_device_item device then ret (Some device) else ret None) s
      = (o, s) /\
    match o with
    | Returns (Some v) =>
        exists (i : nat) (b : Backend.t),
          (bs !! i = Some b) /\ (ask b = Returns v) /\ (is_device_item v = true) /\
          (forall (j : nat) (b' : Backend.t),
             (j < i)%nat -> bs !! j = Some b' -> answers_no_device ask b')
    | Returns None => forall b : Backend.t, b ∈ bs -> answers_no_device ask b
    | Raises e =>
        exists (i : nat) (b : Backend.t),
          (bs !! i = Some b) /\ (ask b = Raises e) /\
          (forall (j : nat) (b' : Backend.t),
             (j < i)%nat -> bs !! j = Some b' -> answers_no_device ask b')
    end.
Proof.
  induction bs as [|b bs IH].
  - exists (Returns None). split; [reflexivity|].
    intros b Hb. by apply not_elem_of_nil in Hb.
  - cbn [for_each_return]. unfold bind at 1 2. unfold call at 1.
    destruct (ask b) as [v|e] eqn:Hb; cbn [ret raise].
    + destruct (is_device_item v) eqn:Hv; cbn [ret].
      * exists (Returns (Some v)). split; [reflexivity|].
        exists 0%nat, b. repeat split; try done. intros j b' Hj. lia.
      * assert (Hpass : answers_no_device ask b) by (by exists v).
        destruct IH as (o & -> & Ho). exists o. split; [by destruct o as [[?|]|?]|].
        destruct o as [[r|]|e].
        -- destruct Ho as (i & b0 & Hi & Hr & Hdev & Hbefore).
           exists (S i), b0. repeat split; try done.
           intros [|j] b' Hj Hb'; cbn in Hb'; [by simplify_eq|].
           eapply Hbefore; [|exact Hb']. lia.
        -- intros b' Hb'. apply elem_of_cons in Hb' as [->|Hb']; [done | by apply Ho].
        -- destruct Ho as (i & b0 & Hi & Hr & Hbefore).
           exists (S i), b0. repeat split; try done.
           intros [|j] b' Hj Hb'; cbn in Hb'; [by simplify_eq|].
           eapply Hbefore; [|exact Hb']. lia.
    + exists (Raises e). split; [reflexivity|].
      exists 0%nat, b. repeat split; try done. intros j b' Hj. lia.
Qed.

Lemma lookup_result (ask : Backend.t -> outcome pyval) s :
  exists r,
    (self <- get ;;
     found <- for_each_return (backends self) (fun backend =>
                device <- call (ask backend) ;;
                if is_device_item device then ret (Some device) else ret None) ;;
     match found with
     | Some device => ret device
     | None => ret PyNone
     end) s = (r, s) /\
    lookup_outcome ask (backends s) r /\
    ((forall b, b ∈ backends s -> exists v, ask b = Returns v) ->
     exists v, r = Returns v).
Proof.
  destruct (lookup_loop ask (backends s) s) as (o & Hrun & Ho).
  unfold bind at 1. unfold get at 1. cbv beta iota.
  unfold bind at 1. rewrite Hrun.
  destruct o as [[v|]|e]; cbn [ret].
  - exists (Returns v). split; [reflexivity|]. split; [by left | eauto].
  - exists (Returns PyNone). split; [reflexivity|]. split; [by right | eauto].
  - exists (Raises e). split; [reflexivity|]. split; [exact Ho|].
    intros Hall. destruct Ho as (i & b & Hi & He & _).
    destruct (Hall b) as [v Hv]; [by eapply list_elem_of_lookup_2|]. congruence.
Qed.

(** C6 as stated fails: the look-ups call the backends with no handler, so
    a backend that raises makes the call raise; here the first of two
    running backends raises and the call raises, although the second
    knows the device. *)
Lemma lookup_raises_with_a_raising_backend :
  let s := set_backends (fun _ => [RaisingBackend; DummyBackend])
             (__init__ sample_common) in
  Backend.get_device_by_name DummyBackend 0%nat "Dummy Mouse"
    = Returns (PyDeviceItem dummy_mouse) /\
  get_device_by_name 0%nat "Dummy Mouse" s
    = (Raises (Exn OtherException "dbus"), s) /\
  get_device_by_serial 0%nat "DUMMY0002" s
    = (Raises (Exn OtherException "dbus"), s).
Proof. cbv zeta. split; [|split]; vm_compute; reflexivity. Qed.

(** C6, amended. [get_device_by_name] and [get_device_by_serial] ask the
    running backends in the order of [backends] (registration order, by
    [init_backends_in_registration_order]) and return the first answer that
    is a device, and None when every backend answers and none with a
    device. They have no handler of their own: the call raises exactly
    what a backend raises when the backends asked before it answered with
    no device, and it does not raise when the backends return. The
    instance is left as it was. *)
Theorem get_device_by_first_match w key s :
  (exists r,
     get_device_by_name w key s = (r, s) /\
     lookup_outcome (fun b => Backend.get_device_by_name b w key) (backends s) r /\
     ((forall b, b ∈ backends s ->
         exists v, Backend.get_device_by_name b w key = Returns v) ->
      exists v, r = Returns v)) /\
  (exists r,
     get_device_by_serial w key s = (r, s) /\
     lookup_outcome (fun b => Backend.get_device_by_serial b w key) (backends s) r /\
     ((forall b, b ∈ backends s ->
         exists v, Backend.get_device_by_serial b w key = Returns v) ->
      exists v, r = Returns v)).
Proof.
  split.
  - exact (lookup_result (fun b => Backend.get_device_by_name b w key) s).
  - exact (lookup_result (fun b => Backend.get_device_by_serial b w key) s).
Qed.

(** With the backends of the healthy registry, in the world with the mouse
    plugged in: the first backend that knows the name answers, and the
    error string of the faulty backend is passed over. *)
Example get_device_by_name_samples :
  let s := (init healthy_registry (__init__ sample_common)).2 in
  get_device_by_name 1%nat "Dummy Mouse" s = (Returns (PyDeviceItem dummy_mouse), s) /\
  get_device_by_serial 1%nat "DUMMY0003" s = (Returns (PyDeviceItem dummy_headset), s) /\
  get_device_by_name 1%nat "Unknown" s = (Returns PyNone, s) /\
  get_device_by_name 1%nat "Unknown"
    (set_backends (fun _ => [FaultyBackend]) s)
    = (Returns PyNone, set_backends (fun _ => [FaultyBackend]) s).
Proof.
  cbv zeta. repeat (match goal with |- _ /\ _ => split end); vm_compute; reflexivity.
Qed.

(** * The active option of a device *)

Lemma scan_options_skip option rest st :
  is_active_effect option = false ->
  scan_options (option :: rest) st = scan_options rest st.
Proof.
  unfold is_active_effect. cbn [scan_options].
  destruct (opt_active option) as [active|]; [|reflexivity].
  destruct (String.eqb (opt_type option) "effect"); cbn; [|reflexivity].
  by intros ->.
Qed.

Lemma scan_options_none_active options st :
  (forall option, option ∈ options -> is_active_effect option = false) ->
  scan_options options st = st.
Proof.
  induction options as [|option rest IH]; intros Hnone; [reflexivity|].
  rewrite scan_options_skip by (apply Hnone; apply list_elem_of_here).
  apply IH. intros o Ho. apply Hnone. by apply list_elem_of_further.
Qed.

Lemma scan_options_record option rest st :
  is_active_effect option = true ->
  scan_options (option :: rest) st =
    match opt_parameters option with
    | None => scan_options rest (record_option option st)
    | Some [] => record_option option st
    | Some ps => scan_options rest (fold_left param_step ps (record_option option st))
    end.
Proof.
  unfold is_active_effect. cbn [scan_options].
  destruct (opt_active option) as [active|]; [|done].
  destruct (String.eqb (opt_type option) "effect"); cbn; [|done].
  by intros ->.
Qed.

Lemma scan_options_skip_prefix pre rest st :
  (forall option, option ∈ pre -> is_active_effect option = false) ->
  scan_options (pre ++ rest) st = scan_options rest st.
Proof.
  induction pre as [|option pre IH]; intros Hnone; [reflexivity|].
  cbn [app]. rewrite scan_options_skip by (apply Hnone; apply list_elem_of_here).
  apply IH. intros o Ho. apply Hnone. by apply list_elem_of_further.
Qed.

(** The loop over the parameters: the last active parameter gives the data
    and the colours, and [param] is left at the last parameter. *)
Lemma fold_param_step ps st :
  let st' := fold_left param_step ps st in
  option_id st' = option_id st /\
  found_option st' = found_option st /\
  param st' = match last ps with Some p => Some p | None => param st end /\
  option_data st' =
    match last (List.filter param_active ps) with
    | Some p => param_data p
    | None => option_data st
    end /\
  colour_hex st' =
    match last (List.filter param_active ps) with
    | Some p => param_colours p
    | None => colour_hex st
    end.
Proof.
  revert st. induction ps as [|p ps IH]; intros st; [by cbn|].
  cbn [fold_left List.filter]. cbv zeta in IH.
  destruct (IH (param_step st p)) as (Hid & Hfound & Hparam & Hdata & Hcol).
  cbv zeta. rewrite Hid, Hfound, Hparam, Hdata, Hcol, last_cons.
  unfold param_step.
  destruct (param_active p); rewrite ?last_cons;
    destruct (last ps); destruct (last (List.filter param_active ps));
    by cbn.
Qed.

Lemma scan_options_single pre option post st :
  is_active_effect option = true ->
  (forall o, o ∈ pre ++ post -> is_active_effect o = false) ->
  scan_options (pre ++ option :: post) st =
    match opt_parameters option with
    | None => record_option option st
    | Some [] => record_option option st
    | Some ps => fold_left param_step ps (record_option option st)
    end.
Proof.
  intros Hactive Hothers.
  rewrite scan_options_skip_prefix
    by (intros o Ho; apply Hothers; rewrite elem_of_app; by left).
  rewrite scan_options_record by done.
  assert (Hpost : forall st', scan_options post st' = st').
  { intros st'. apply scan_options_none_active.
    intros o Ho. apply Hothers. rewrite elem_of_app. by right. }
  destruct (opt_parameters option) as [[|p ps]|]; by rewrite ?Hpost.
Qed.

Lemma lookup_key_elem_of {V} (k : string) (d : list (string * V)) :
  k ∈ keys d -> exists v, lookup_key k d = Some v /\ (k, v) ∈ d.
Proof.
  induction d as [|[k' v'] d IH]; cbn.
  - intros Hk. by apply not_elem_of_nil in Hk.
  - destruct (String.eqb_spec k' k) as [->|Hne].
    + intros _. exists v'. split; [done | apply list_elem_of_here].
    + rewrite elem_of_cons. intros [Heq|Hk]; [congruence|].
      destruct (IH Hk) as (v & Hv & Hin). exists v.
      split; [done | by apply list_elem_of_further].
Qed.

Lemma lookup_key_Some_elem_of {V} (k : string) (d : list (string * V)) v :
  lookup_key k d = Some v -> (k, v) ∈ d.
Proof.
  induction d as [|[k' v'] d IH]; cbn; [done|].
  destruct (String.eqb_spec k' k) as [->|Hne].
  - intros [= ->]. apply list_elem_of_here.
  - intros Hv. apply list_elem_of_further. by apply IH.
Qed.

Lemma elem_of_options_in_order zone_options zone options (option : DeviceOption) :
  (zone, options) ∈ zone_options -> option ∈ options ->
  option ∈ options_in_order zone_options.
Proof.
  intros Hzone Hoption. unfold options_in_order.
  apply list_elem_of_In, in_concat. exists options.
  split; [|by apply list_elem_of_In].
  apply list_elem_of_In, list_elem_of_fmap. by exists (zone, options).
Qed.

Lemma scan_zones_none_active zone_options zones st :
  (forall zone, zone ∈ zones -> zone ∈ keys zone_options) ->
  (forall option, option ∈ options_in_order zone_options ->
     is_active_effect option = false) ->
  scan_zones zone_options zones st = Returns st.
Proof.
  intros Hzones Hnone. induction zones as [|zone zones IH]; [reflexivity|].
  cbn [scan_zones].
  destruct (lookup_key_elem_of zone zone_options) as (options & -> & Hin);
    [apply Hzones, list_elem_of_here|].
  rewrite scan_options_none_active.
  - apply IH. intros z Hz. apply Hzones. by apply list_elem_of_further.
  - intros o Ho. apply Hnone. by eapply elem_of_options_in_order.
Qed.

Lemma truthy_zone zone : zone <> "" -> truthy (PyStr zone) = true.
Proof. intros Hne. cbn. by destruct (String.eqb_spec zone ""). Qed.

(** C5 as stated fails in the third component: with no active effect in
    scope the method returns [[None, None, None]], whose colours are None
    and not the empty list. *)
Lemma no_active_effect_returns_none_colours :
  (forall option, option ∈ options_in_order (zone_options dark_device) ->
     is_active_effect option = false) /\
  _get_current_device_option dark_device (Some "main")
    = Returns (None, PyNone, None) /\
  _get_current_device_option dark_device (Some "main")
    <> Returns (None, PyNone, Some []).
Proof.
  split; [|split; [reflexivity | discriminate]].
  intros option. cbn. rewrite !elem_of_cons.
  intros [->|[->|Hin]]; [reflexivity..|]. by apply not_elem_of_nil in Hin.
Qed.

(** C5, amended. With no active effect option in scope (all zones, or one
    named zone) the method returns [[None, None, None]]. On a named zone
    with exactly one active effect option it returns the id of that option
    with the colours of the option itself when the option has no parameters
    (no "parameters" key, or an empty list), and with the data and the
    colours of its active parameter (the last active one) when it has
    parameters. *)
Theorem current_option_of_zero_or_one_active_effect device :
  ((forall option, option ∈ options_in_order (zone_options device) ->
      is_active_effect option = false) ->
   _get_current_device_option device None = Returns (None, PyNone, None)) /\
  (forall zone options,
     zone <> "" ->
     lookup_key zone (zone_options device) = Some options ->
     ((forall option, option ∈ options -> is_active_effect option = false) ->
      _get_current_device_option device (Some zone) = Returns (None, PyNone, None)) /\
     (forall pre option post,
        options = pre ++ option :: post ->
        is_active_effect option = true ->
        (forall o, o ∈ pre ++ post -> is_active_effect o = false) ->
        match opt_parameters option with
        | None | Some [] =>
            _get_current_device_option device (Some zone)
              = Returns (Some (opt_id option), PyNone, Some (opt_colours option))
        | Some ps =>
            forall p, last (List.filter param_active ps) = Some p ->
              _get_current_device_option device (Some zone)
                = Returns (Some (opt_id option), param_data p, Some (param_colours p))
        end)).
Proof.
  split.
  - intros Hnone. unfold _get_current_device_option.
    by rewrite scan_zones_none_active.
  - intros zone options Hzone Hlookup. split.
    + intros Hnone. unfold _get_current_device_option.
      rewrite truthy_zone by done. cbn [scan_zones]. rewrite Hlookup.
      by rewrite scan_options_none_active.
    + intros pre option post -> Hactive Hothers.
      unfold _get_current_device_option.
      rewrite truthy_zone by done. cbn [scan_zones]. rewrite Hlookup.
      rewrite scan_options_single by done.
      destruct (opt_parameters option) as [[|p0 ps]|]; [reflexivity| |reflexivity].
      intros p Hp.
      pose proof (fold_param_step (p0 :: ps) (record_option option initial_locals))
        as Hfold.
      cbv zeta in Hfold. destruct Hfold as (Hid & Hfound & Hparam & Hdata & Hcol).
      rewrite Hfound, Hparam, Hid, Hdata, Hcol, Hp. cbn [record_option found_option option_id].
      rewrite last_cons. by destruct (last ps).
Qed.

Lemma current_option_of_zero_or_one_active_effect_witness :
  _get_current_device_option wave_device (Some "main")
    = Returns (Some "wave", PyInt 2, Some ["#FF0000"]).
Proof.
  destruct (current_option_of_zero_or_one_active_effect wave_device) as [_ Hzone].
  destruct (Hzone "main" [brightness_option; idle_effect_option; wave_option])
    as [_ Hone]; [discriminate | reflexivity |].
  refine (Hone [brightness_option; idle_effect_option] wave_option [] _ _ _
            {| param_active := true; param_data := PyInt 2;
               param_colours := ["#FF0000"] |} _);
    try reflexivity.
  intros o. cbn. rewrite !elem_of_cons.
  intros [->|[->|Hin]]; [reflexivity..|]. by apply not_elem_of_nil in Hin.
Defined.

(** When no active effect option has an empty parameter list, the loop over
    the options of a zone visits them all and the last active effect option
    is the recorded one. *)
Lemma scan_options_last_match options st :
  (forall o, o ∈ options -> is_active_effect o = true ->
     has_empty_parameters o = false) ->
  let st' := scan_options options st in
  option_id st' =
    match last (List.filter is_active_effect options) with
    | Some o => Some (opt_id o)
    | None => option_id st
    end /\
  found_option st' =
    match last (List.filter is_active_effect options) with
    | Some o => Some o
    | None => found_option st
    end.
Proof.
  revert st. induction options as [|option rest IH]; intros st Hfull; [by cbn|].
  assert (Hrest : forall o, o ∈ rest -> is_active_effect o = true ->
                    has_empty_parameters o = false).
  { intros o Ho. apply Hfull. by apply list_elem_of_further. }
  cbn [List.filter]. destruct (is_active_effect option) eqn:Hactive.
  - specialize (Hfull option (list_elem_of_here _ _) Hactive).
    rewrite scan_options_record by done. rewrite last_cons.
    unfold has_empty_parameters in Hfull.
    destruct (opt_parameters option) as [[|p ps]|]; [done| |].
    + pose proof (fold_param_step (p :: ps) (record_option option st)) as Hfold.
      cbv zeta in Hfold. destruct Hfold as (Hid & Hfound & _).
      destruct (IH (fold_left param_step (p :: ps) (record_option option st)) Hrest)
        as [-> ->].
      rewrite Hid, Hfound.
      by destruct (last (List.filter is_active_effect rest)).
    + destruct (IH (record_option option st) Hrest) as [-> ->].
      by destruct (last (List.filter is_active_effect rest)).
  - rewrite scan_options_skip by done. by apply IH.
Qed.

(** X23. Last match wins on a named zone none of whose active effect options has
    an empty parameter list. *)
Lemma last_match_wins_without_break device zone options option :
  zone <> "" ->
  lookup_key zone (zone_options device) = Some options ->
  (forall o, o ∈ options -> is_active_effect o = true ->
     has_empty_parameters o = false) ->
  last (List.filter is_active_effect options) = Some option ->
  exists data colours,
    _get_current_device_option device (Some zone)
      = Returns (Some (opt_id option), data, colours).
Proof.
  intros Hzone Hlookup Hfull Hlast. unfold _get_current_device_option.
  rewrite truthy_zone by done. cbn [scan_zones]. rewrite Hlookup.
  destruct (scan_options_last_match options initial_locals Hfull) as [Hid Hfound].
  rewrite Hlast in Hid, Hfound. rewrite Hfound, Hid. eauto.
Qed.

(** The [break]: the zone "main" of [two_effects_device] lists two active
    effect options, "static" before "spectrum"; "static" has an empty
    parameter list, the [break] leaves the loop over the options,
    "spectrum" is never visited and "static", the only option recorded, is
    returned, for the named zone as for all zones. *)
Theorem first_effect_without_parameters_wins :
  zone_options two_effects_device
    = [("main", [brightness_option; static_option; spectrum_option])] /\
  List.filter is_active_effect [brightness_option; static_option; spectrum_option]
    = [static_option; spectrum_option] /\
  _get_current_device_option two_effects_device (Some "main")
    = Returns (Some "static", PyNone, Some ["#00FF00"]) /\
  _get_current_device_option two_effects_device None
    = Returns (Some "static", PyNone, Some ["#00FF00"]).
Proof. repeat split; reflexivity. Qed.

(** The same two options in the other order: no [break] before the second
    one, and the last match is returned. *)
Example last_effect_wins_after_spectrum :
  _get_current_device_option
    (sample_device [("main", [brightness_option; spectrum_option; static_option])])
    (Some "main")
    = Returns (Some "static", PyNone, Some ["#00FF00"]) /\
  _get_current_device_option
    (sample_device [("main", [brightness_option; wave_option; spectrum_option])])
    (Some "main")
    = Returns (Some "spectrum", PyInt 2, Some ["#FF0000"]).
Proof. split; reflexivity. Qed.

(** * Apply to all: the claim *)

Lemma length_pad_colours colour_hex colours_needed :
  Z.of_nat (length (pad_colours colour_hex colours_needed))
    = Z.max (Z.of_nat (length colour_hex)) colours_needed.
Proof. unfold pad_colours. rewrite length_app, length_replicate. lia. Qed.

(** The two names [set_bulk_option] calls on [self] are not bound; the
    accessor of the devices that the class does bind is [get_devices]. *)
Lemma unbound_names :
  ("get_device_all" ∉ Middleman_attributes) /\
  ("set_device_state" ∉ Middleman_attributes) /\
  ("get_devices" ∈ Middleman_attributes).
Proof.
  split; [|split].
  - by apply (bool_decide_unpack _).
  - by apply (bool_decide_unpack _).
  - by apply (bool_decide_unpack _).
Qed.

(** C7 fails on the code. The class body binds neither [get_device_all]
    (the accessor of the devices is [get_devices]) nor [set_device_state]:
    whatever these names would stand for, every call of [set_bulk_option]
    raises AttributeError at [self.get_device_all()], before any device or
    zone is looked at, and no zone gets an apply-state call. *)
Theorem set_bulk_option_raises_attribute_error
    get_device_all set_device_state option_id option_data colours_needed s :
  set_bulk_option get_device_all set_device_state
    option_id option_data colours_needed s
    = (Raises (Exn AttributeError "get_device_all"), s).
Proof.
  unfold set_bulk_option, set_bulk_option_on, getattr.
  rewrite bool_decide_eq_false_2 by apply unbound_names.
  reflexivity.
Qed.

Lemma for_each_app {A} (l1 l2 : list A) (body : A -> M unit) s :
  for_each (l1 ++ l2) body s = (for_each l1 body ;; for_each l2 body) s.
Proof.
  revert s. induction l1 as [|x l1 IH]; intros s; [reflexivity|].
  cbn [app for_each]. unfold bind at 1 2 3.
  destruct (body x s) as [[[]|e] s1]; [|reflexivity].
  rewrite IH. reflexivity.
Qed.

Lemma lookup_key_NoDup {V} (k : string) (v : V) (d : list (string * V)) :
  NoDup (keys d) -> (k, v) ∈ d -> lookup_key k d = Some v.
Proof.
  induction d as [|[k' v'] d IH]; cbn; intros Hnd Hin.
  - by apply not_elem_of_nil in Hin.
  - apply NoDup_cons in Hnd as [Hfresh Hnd].
    apply elem_of_cons in Hin as [[= -> ->]|Hin].
    + by rewrite String.eqb_refl.
    + destruct (String.eqb_spec k' k) as [->|Hne]; [|by apply IH].
      exfalso. apply Hfresh. apply list_elem_of_fmap. by exists (k, v).
Qed.

Section WhenBound.
Variable bound_names : list string.
Variable get_device_all : M (list Device).
Variable set_device_state :
  string -> string -> string -> string -> string -> pyval -> list string -> M pyval.
Hypothesis get_device_all_bound : "get_device_all" ∈ bound_names.
Hypothesis set_device_state_bound : "set_device_state" ∈ bound_names.

Lemma zones_loop_when_bound device option_id option_data colours_needed zones s :
  (forall zone options, (zone, options) ∈ zones ->
     lookup_key zone (zone_options device) = Some options) ->
  for_each (keys zones)
    (set_bulk_option_zone bound_names set_device_state device
       option_id option_data colours_needed) s
  = for_each (omap (zone_request option_id colours_needed device) zones)
      (fun '(d, zone, colours) =>
         set_device_state (device_backend d) (device_uid d) (device_serial d)
           zone option_id option_data colours ;;
         ret tt) s.
Proof.
  revert s. induction zones as [|[zone options] zones IH]; intros s Hzones;
    [reflexivity|].
  assert (Hrest : forall z o, (z, o) ∈ zones ->
                    lookup_key z (zone_options device) = Some o).
  { intros z o Hin. apply Hzones. by apply list_elem_of_further. }
  cbn [keys fmap list_fmap for_each omap list_omap fst].
  unfold zone_request at 1. cbn [fst snd].
  unfold bind at 1. unfold set_bulk_option_zone at 1.
  rewrite (Hzones zone options) by apply list_elem_of_here.
  destruct (find_option option_id options) as [option|].
  - cbn [for_each]. unfold getattr.
    rewrite bool_decide_eq_true_2 by exact set_device_state_bound.
    unfold bind, ret.
    destruct (set_device_state _ _ _ _ _ _ _ s) as [[result|e] s1]; [|reflexivity].
    apply IH, Hrest.
  - cbn [ret]. apply IH, Hrest.
Qed.

(** X22. Were the two names bound, [set_bulk_option] would issue exactly the
    requests of [bulk_requests], in order, with the padded colours. *)
Lemma set_bulk_option_when_bound option_id option_data colours_needed devices s s' :
  get_device_all s = (Returns devices, s') ->
  (forall device, device ∈ devices -> NoDup (keys (zone_options device))) ->
  set_bulk_option_on bound_names get_device_all set_device_state
    option_id option_data colours_needed s
  = for_each (bulk_requests option_id colours_needed devices)
      (fun '(d, zone, colours) =>
         set_device_state (device_backend d) (device_uid d) (device_serial d)
           zone option_id option_data colours ;;
         ret tt) s'.
Proof.
  intros Hall Hnodup. unfold set_bulk_option_on, getattr.
  rewrite bool_decide_eq_true_2 by exact get_device_all_bound.
  unfold bind at 1. cbn [ret]. unfold bind at 1. rewrite Hall.
  clear Hall s. revert s'.
  induction devices as [|device devices IH]; intros s; [reflexivity|].
  unfold bulk_requests. cbn [flat_map for_each]. rewrite for_each_app.
  unfold bind at 1 2.
  rewrite zones_loop_when_bound.
  - destruct (for_each _ _ s) as [[[]|e] s1]; [|reflexivity].
    apply IH. intros d Hd. apply Hnodup. by apply list_elem_of_further.
  - intros zone options Hin. apply lookup_key_NoDup; [|done].
    apply Hnodup, list_elem_of_here.
Qed.
End WhenBound.

(** * Look-ups over the running backends *)

Lemma find_loop {B} (test : Backend.t -> bool) (value : Backend.t -> B) bs s :
  for_each_return bs (fun module =>
    if test module then ret (Some (value module)) else ret None) s
  = (Returns (value <$> List.find test bs), s).
Proof.
  induction bs as [|b bs IH]; [reflexivity|].
  cbn [for_each_return List.find]. unfold bind at 1.
  destruct (test b); cbn [ret]; [reflexivity | exact IH].
Qed.

Lemma find_first {A} (test : A -> bool) (l : list A) :
  match List.find test l with
  | Some x =>
      exists i : nat,
        l !! i = Some x /\ test x = true /\
        forall (j : nat) (y : A), (j < i)%nat -> l !! j = Some y -> test y = false
  | None => forall y : A, y ∈ l -> test y = false
  end.
Proof.
  induction l as [|a l IH]; cbn [List.find].
  - intros y Hy. by apply not_elem_of_nil in Hy.
  - destruct (test a) eqn:Ha.
    + exists 0%nat. repeat split; try done. intros j y Hj. lia.
    + destruct (List.find test l) as [x|].
      * destruct IH as (i & Hi & Hx & Hbefore). exists (S i).
        repeat split; try done. intros [|j] y Hj Hy; cbn in Hy.
        -- by simplify_eq.
        -- eapply Hbefore; [|exact Hy]. lia.
      * intros y Hy. apply elem_of_cons in Hy as [->|Hy]; [done | by apply IH].
Qed.

Lemma get_backend_eq backend_id s :
  get_backend backend_id s
  = (Returns (List.find (fun b => String.eqb (Backend.backend_id b) backend_id)
                (backends s)), s).
Proof.
  unfold get_backend. unfold bind at 1. unfold get at 1. cbv beta iota.
  rewrite (find_loop (fun b => String.eqb (Backend.backend_id b) backend_id)
             (fun b => b)).
  by destruct (List.find _ _).
Qed.

Lemma is_backend_running_eq backend_id s :
  is_backend_running backend_id s
  = (Returns (bool_decide (is_Some
       (List.find (fun b => String.eqb (Backend.backend_id b) backend_id)
          (backends s)))), s).
Proof.
  unfold is_backend_running. unfold bind at 1. unfold get at 1. cbv beta iota.
  unfold bind at 1.
  rewrite (find_loop (fun b => String.eqb (Backend.backend_id b) backend_id)
             (fun _ => true)).
  by destruct (List.find _ _).
Qed.

(** X1. [get_backend] returns the first running backend, in the order of
    [backends], whose [backend_id] is the requested one, and None when no
    running backend has that id; [is_backend_running] says True exactly when
    [get_backend] finds a backend. Neither raises nor changes the
    instance. *)
Theorem get_backend_first_with_id backend_id s :
  exists found,
    get_backend backend_id s = (Returns found, s) /\
    is_backend_running backend_id s = (Returns (bool_decide (is_Some found)), s) /\
    match found with
    | Some b =>
        exists i : nat,
          backends s !! i = Some b /\
          Backend.backend_id b = backend_id /\
          forall (j : nat) (b' : Backend.t),
            (j < i)%nat -> backends s !! j = Some b' ->
            Backend.backend_id b' <> backend_id
    | None =>
        forall b : Backend.t, b ∈ backends s -> Backend.backend_id b <> backend_id
    end.
Proof.
  exists (List.find (fun b => String.eqb (Backend.backend_id b) backend_id)
            (backends s)).
  split; [apply get_backend_eq|]. split; [apply is_backend_running_eq|].
  pose proof (find_first (fun b => String.eqb (Backend.backend_id b) backend_id)
                (backends s)) as Hfind.
  destruct (List.find _ _) as [b|].
  - destruct Hfind as (i & Hi & Hb & Hbefore). exists i.
    split; [done|]. split; [by apply String.eqb_eq|].
    intros j b' Hj Hb'. apply String.eqb_neq. by eapply Hbefore.
  - intros b Hb. apply String.eqb_neq. by apply Hfind.
Qed.

Lemma fold_versions bs (m : gmap string string) backend_id :
  fold_left
    (fun versions module =>
       <[Backend.backend_id module := Backend.version module]> versions) bs m
    !! backend_id
  = match last (List.filter
                  (fun b => String.eqb (Backend.backend_id b) backend_id) bs) with
    | Some b => Some (Backend.version b)
    | None => m !! backend_id
    end.
Proof.
  revert m. induction bs as [|b bs IH]; intros m; [reflexivity|].
  cbn [fold_left List.filter]. rewrite IH.
  destruct (String.eqb_spec (Backend.backend_id b) backend_id) as [Heq|Hne].
  - rewrite last_cons.
    destruct (last (List.filter _ bs)); [reflexivity|].
    by rewrite <- Heq, lookup_insert_eq.
  - destruct (last (List.filter _ bs)); [reflexivity|].
    by rewrite lookup_insert_ne.
Qed.

(** X2. [get_versions] maps a backend id to the version of the last running
    backend with that id, and has no entry for an id that no running
    backend has; so an id has a version exactly when [is_backend_running]
    says True. It neither raises nor changes the instance. *)
Theorem get_versions_of_running s :
  exists versions,
    get_versions s = (Returns versions, s) /\
    (forall backend_id,
       versions !! backend_id
       = Backend.version <$>
           last (List.filter
                   (fun b => String.eqb (Backend.backend_id b) backend_id)
                   (backends s))) /\
    (forall backend_id,
       is_backend_running backend_id s
       = (Returns (bool_decide (is_Some (versions !! backend_id))), s)).
Proof.
  eexists. split; [reflexivity|].
  assert (Hlookup : forall backend_id,
    fold_left
      (fun versions module =>
         <[Backend.backend_id module := Backend.version module]> versions)
      (backends s) (∅ : gmap string string) !! backend_id
    = Backend.version <$>
        last (List.filter
                (fun b => String.eqb (Backend.backend_id b) backend_id)
                (backends s))).
  { intros backend_id. rewrite fold_versions.
    destruct (last _); [reflexivity | apply lookup_empty]. }
  split; [exact Hlookup|].
  intros backend_id. rewrite is_backend_running_eq, Hlookup. do 2 f_equal.
  apply bool_decide_ext. rewrite fmap_is_Some. clear Hlookup.
  induction (backends s) as [|b bs IH]; cbn [List.find List.filter]; [done|].
  destruct (String.eqb (Backend.backend_id b) backend_id).
  - rewrite last_cons. split; intros _; [by destruct (last _) | done].
  - exact IH.
Qed.

Lemma filter_nil_of_fresh (backend_id : string) (bs : list Backend.t) :
  backend_id ∉ Backend.backend_id <$> bs ->
  List.filter (fun b => String.eqb (Backend.backend_id b) backend_id) bs = [].
Proof.
  induction bs as [|b bs IH]; cbn [List.filter fmap list_fmap]; [done|].
  rewrite not_elem_of_cons. intros [Hne Hfresh].
  destruct (String.eqb_spec (Backend.backend_id b) backend_id); [congruence|].
  by apply IH.
Qed.

(** X3. When the running backends have pairwise distinct ids, the version
    that [get_versions] lists for an id is the version of the backend that
    [get_backend] returns for it. *)
Theorem get_versions_agrees_with_get_backend backend_id s :
  NoDup (Backend.backend_id <$> backends s) ->
  exists versions found,
    get_versions s = (Returns versions, s) /\
    get_backend backend_id s = (Returns found, s) /\
    versions !! backend_id = Backend.version <$> found.
Proof.
  intros Hnodup.
  eexists _, (List.find (fun b => String.eqb (Backend.backend_id b) backend_id)
                (backends s)).
  split; [reflexivity|]. split; [apply get_backend_eq|].
  rewrite fold_versions.
  transitivity (Backend.version <$>
    last (List.filter (fun b => String.eqb (Backend.backend_id b) backend_id)
            (backends s))).
  { destruct (last _); [reflexivity | apply lookup_empty]. }
  f_equal.
  induction (backends s) as [|b bs IH]; cbn [List.find List.filter]; [done|].
  cbn [fmap list_fmap] in Hnodup. apply NoDup_cons in Hnodup as [Hfresh Hnodup].
  destruct (String.eqb_spec (Backend.backend_id b) backend_id) as [Heq|Hne].
  - rewrite filter_nil_of_fresh; [reflexivity | by rewrite <- Heq].
  - by apply IH.
Qed.

Lemma get_versions_agrees_with_get_backend_witness :
  exists versions found,
    get_versions (init sample_registry (__init__ sample_common)).2
      = (Returns versions, (init sample_registry (__init__ sample_common)).2) /\
    get_backend "dummy" (init sample_registry (__init__ sample_common)).2
      = (Returns found, (init sample_registry (__init__ sample_common)).2) /\
    versions !! "dummy" = Backend.version <$> found.
Proof.
  apply (get_versions_agrees_with_get_backend "dummy"
           (init sample_registry (__init__ sample_common)).2).
  cbn. apply NoDup_singleton.
Defined.

(** With two running backends of the same id the two disagree: the first
    one is returned, the version of the last one is listed. *)
Example get_versions_with_a_repeated_id :
  let s := set_backends (fun _ => [DummyBackend; OtherDummyBackend])
             (__init__ sample_common) in
  get_backend "dummy" s = (Returns (Some DummyBackend), s) /\
  (get_versions s).1 = Returns (<["dummy" := "1.0"]> ∅).
Proof. cbv zeta. split; reflexivity. Qed.

(** X4. After [init()], a backend that was constructed and whose [init()]
    was truthy is found by its own [backend_id]: [is_backend_running] says
    True and [get_backend] returns a backend with that id. *)
Theorem init_then_backend_is_running reg common pre key post b v :
  keys (BACKEND_NAMES reg) = pre ++ key :: post ->
  (forall x, x ∈ pre -> is_Some (TROUBLESHOOT_MODULES reg !! x)) ->
  BACKEND_MODULES reg !! key = Some (Returns b) ->
  Backend.init b = Returns v ->
  truthy v = true ->
  let s := (init reg (__init__ common)).2 in
  is_backend_running (Backend.backend_id b) s = (Returns true, s) /\
  exists b',
    get_backend (Backend.backend_id b) s = (Returns (Some b'), s) /\
    Backend.backend_id b' = Backend.backend_id b.
Proof.
  intros Hkeys Hpre Hmod Hinit Hv s.
  assert (Hin : b ∈ backends s).
  { apply elem_of_final_backends. exists key. split.
    - rewrite Hkeys. by apply attempted_reaches.
    - unfold load_result_of. by rewrite Hmod, Hinit, Hv. }
  rewrite is_backend_running_eq, get_backend_eq.
  pose proof (find_first
                (fun b' => String.eqb (Backend.backend_id b') (Backend.backend_id b))
                (backends s)) as Hfind.
  destruct (List.find _ (backends s)) as [b'|].
  - split; [reflexivity|]. exists b'. split; [reflexivity|].
    destruct Hfind as (i & _ & Hid & _). by apply String.eqb_eq.
  - exfalso. specialize (Hfind b Hin). cbv beta in Hfind.
    by rewrite String.eqb_refl in Hfind.
Qed.

Lemma init_then_backend_is_running_witness :
  is_backend_running "dummy" (init sample_registry (__init__ sample_common)).2
    = (Returns true, (init sample_registry (__init__ sample_common)).2).
Proof.
  refine (proj1 (init_then_backend_is_running sample_registry sample_common
                   ["openrazer"] "dummy" ["idle"; "broken"] DummyBackend
                   (PyBool true) _ _ _ _ _)); try reflexivity.
  intros x Hx. apply list_elem_of_singleton in Hx. subst x.
  exists "openrazer.troubleshoot". reflexivity.
Defined.

(** X5. [init()] appends: on an instance that was initialised already, a
    second [init()] with the same registry lists every running backend,
    every badly initialised backend and every id that is not installed a
    second time, and leaves the two dicts as they were. *)
Theorem init_twice_duplicates reg common :
  let s1 := (init reg (__init__ common)).2 in
  let s2 := (init reg s1).2 in
  backends s2 = backends s1 ++ backends s1 /\
  bad_init s2 = bad_init s1 ++ bad_init s1 /\
  not_installed s2 = not_installed s1 ++ not_installed s1 /\
  import_errors s2 = import_errors s1 /\
  troubleshooters s2 = troubleshooters s1.
Proof.
  intros s1 s2. unfold s2, s1. rewrite !init_unfold. cbn [snd].
  set (ids := attempted reg (keys (BACKEND_NAMES reg))).
  rewrite !(loads_backends reg ids), !(loads_bad_init reg ids),
    !(loads_not_installed reg ids). cbn.
  split; [done|]. split; [done|]. split; [done|]. split.
  - apply map_eq. intros x.
    rewrite !(loads_import_errors reg ids), loads_common. cbn.
    destruct (bool_decide (x ∈ ids)); [|by rewrite lookup_empty].
    by destruct (import_error_of reg x).
  - apply map_eq. intros x.
    rewrite !(loads_troubleshooters reg ids). cbn.
    destruct (bool_decide (x ∈ ids)); [|by rewrite lookup_empty].
    by destruct (TROUBLESHOOT_MODULES reg !! x).
Qed.

(** X6. [init()] does not touch the device cache: on an instance whose
    cache is loaded, [get_devices()] after another [init()] still returns
    the list object that was cached before, not the devices of the backends
    just loaded. *)
Theorem init_keeps_device_cache reg w s :
  elems (device_cache s) <> [] ->
  get_devices w (init reg s).2 = (Returns (device_cache s), (init reg s).2).
Proof.
  intros Hloaded.
  assert (Hcache : device_cache (init reg s).2 = device_cache s).
  { rewrite init_unfold. cbn [snd]. apply loads_cache. }
  rewrite get_devices_eq, reload_when_loaded by (by rewrite Hcache).
  cbn. by rewrite Hcache.
Qed.

Lemma init_keeps_device_cache_witness :
  let s := (get_devices 1%nat
              (set_backends (fun _ => [HotplugBackend]) (__init__ sample_common))).2 in
  get_devices 1%nat (init healthy_registry s).2
    = (Returns (device_cache s), (init healthy_registry s).2).
Proof.
  intros s. apply (init_keeps_device_cache healthy_registry 1%nat s).
  discriminate.
Defined.

(** * The identity of the cached list *)

Lemma populate_loop_identity w bs s :
  cache_allocated s ->
  exists s',
    for_each bs (fun module =>
      match Backend.get_devices module w with
      | PyList l =>
          self <- get ;;
          modify (bind_new_cache (elems (device_cache self) ++ l))
      | _ => ret tt
      end) s = (Returns tt, s') /\
    cache_allocated s' /\
    (oid (device_cache s) <= oid (device_cache s'))%nat /\
    (allocated s <= allocated s')%nat.
Proof.
  revert s. induction bs as [|b bs IH]; intros s Hwf.
  - exists s. by repeat split.
  - cbn [for_each]. unfold bind at 1.
    destruct (Backend.get_devices b w) as [| | | |l|]; cbn [ret];
      try exact (IH s Hwf).
    destruct (IH (bind_new_cache (elems (device_cache s) ++ l) s))
      as (s' & Hrun & Hwf' & Hoid & Halloc).
    { unfold cache_allocated. cbn. lia. }
    exists s'. unfold bind, get, modify. cbn [fst snd].
    split; [exact Hrun|]. split; [exact Hwf'|].
    unfold cache_allocated in Hwf. cbn in Hoid, Halloc. lia.
Qed.

Lemma reload_if_empty_identity w s :
  cache_allocated s ->
  exists s',
    _reload_device_cache_if_empty w s = (Returns tt, s') /\
    cache_allocated s' /\
    (oid (device_cache s) <= oid (device_cache s'))%nat /\
    (allocated s <= allocated s')%nat.
Proof.
  intros Hwf. unfold _reload_device_cache_if_empty.
  unfold bind at 1. unfold get at 1. cbv beta iota.
  destruct (truthy (PyList (elems (device_cache s)))).
  - exists s. by repeat split.
  - by apply populate_loop_identity.
Qed.

(** X7. Given that the [get_devices()] of the running backends return,
    [reload_device_cache] rebuilds the cache whatever it held: it leaves a
    list object that is not the one cached before, holding the list
    answers of the running backends in their order. *)
Theorem reload_device_cache_rebuilds w s :
  cache_allocated s ->
  exists s',
    reload_device_cache w s = (Returns tt, s') /\
    elems (device_cache s') = concat (omap (device_list_of w) (backends s)) /\
    oid (device_cache s') <> oid (device_cache s) /\
    cache_allocated s' /\
    backends s' = backends s.
Proof.
  intros Hwf. unfold reload_device_cache. unfold bind at 1.
  unfold modify at 1. cbv beta iota.
  set (s0 := bind_new_cache [] s).
  assert (Hwf0 : cache_allocated s0) by (unfold cache_allocated; cbn; lia).
  destruct (reload_if_empty_identity w s0 Hwf0) as (s' & Hrun & Hwf' & Hoid & _).
  destruct (reload_when_empty w s0 eq_refl) as (s'' & Hrun' & He & Hbs).
  rewrite Hrun in Hrun'. injection Hrun' as <-.
  exists s'. split; [exact Hrun|]. split; [exact He|]. split; [|by split].
  unfold cache_allocated in Hwf. cbn in Hoid. lia.
Qed.

Lemma reload_device_cache_rebuilds_witness :
  let s := (get_devices 1%nat
              (set_backends (fun _ => [HotplugBackend]) (__init__ sample_common))).2 in
  exists s',
    reload_device_cache 0%nat s = (Returns tt, s') /\
    elems (device_cache s') = concat (omap (device_list_of 0%nat) (backends s)) /\
    oid (device_cache s') <> oid (device_cache s) /\
    cache_allocated s' /\
    backends s' = backends s.
Proof.
  intros s. apply (reload_device_cache_rebuilds 0%nat s).
  unfold cache_allocated. cbn. lia.
Defined.

Lemma get_devices_identity w s :
  cache_allocated s ->
  exists s',
    get_devices w s = (Returns (device_cache s'), s') /\
    cache_allocated s' /\
    (allocated s <= allocated s')%nat.
Proof.
  intros Hwf.
  destruct (reload_if_empty_identity w s Hwf) as (s' & Hrun & Hwf' & _ & Halloc).
  exists s'. rewrite get_devices_eq, Hrun. by cbn.
Qed.

Lemma get_device_by_form_factor_eq w ff_id s :
  get_device_by_form_factor w ff_id s =
    let s' := (get_devices w s).2 in
    match (get_devices w s).1 with
    | Returns _ =>
        new_list (List.filter (fun device => String.eqb (form_factor_id device) ff_id)
                    (elems (device_cache s'))) s'
    | Raises e => (Raises e, s')
    end.
Proof.
  unfold get_device_by_form_factor. rewrite get_devices_eq.
  unfold bind at 1.
  destruct (_reload_device_cache_if_empty w s) as [[[]|e] s']; reflexivity.
Qed.

(** X9. [get_device_by_form_factor] loads the cache as [get_devices] does
    and returns, in a list object of its own, the cached devices whose
    form factor is the requested one, in cache order: a device is returned
    exactly when it is cached and has that form factor, and the list is
    empty, not None, when there is none. *)
Theorem get_device_by_form_factor_filters_cache w ff_id s :
  cache_allocated s ->
  exists r s',
    get_device_by_form_factor w ff_id s = (Returns r, s') /\
    device_cache s' = device_cache (get_devices w s).2 /\
    backends s' = backends (get_devices w s).2 /\
    oid r <> oid (device_cache s') /\
    sublist (elems r) (elems (device_cache s')) /\
    (forall device,
       device ∈ elems r <->
       device ∈ elems (device_cache s') /\ form_factor_id device = ff_id).
Proof.
  intros Hwf. rewrite get_device_by_form_factor_eq.
  destruct (get_devices_identity w s Hwf) as (s1 & -> & Hwf1 & _).
  cbv zeta. cbn [fst snd]. eexists _, _. split; [reflexivity|].
  cbn. split; [done|]. split; [done|]. split; [|split].
  - unfold cache_allocated in Hwf1. lia.
  - induction (elems (device_cache s1)) as [|d l IH]; cbn; [done|].
    destruct (String.eqb (form_factor_id d) ff_id);
      [by apply sublist_skip | by apply sublist_cons].
  - intros device. rewrite !list_elem_of_In, filter_In.
    by rewrite String.eqb_eq.
Qed.

Lemma get_device_by_form_factor_filters_cache_witness :
  let s := (init healthy_registry (__init__ sample_common)).2 in
  exists r s',
    get_device_by_form_factor 1%nat "keyboard" s = (Returns r, s') /\
    device_cache s' = device_cache (get_devices 1%nat s).2 /\
    backends s' = backends (get_devices 1%nat s).2 /\
    oid r <> oid (device_cache s') /\
    sublist (elems r) (elems (device_cache s')) /\
    (forall device,
       device ∈ elems r <->
       device ∈ elems (device_cache s') /\ form_factor_id device = "keyboard").
Proof.
  intros s. apply (get_device_by_form_factor_filters_cache 1%nat "keyboard" s).
  unfold cache_allocated. vm_compute. lia.
Defined.

Example keyboards_of_the_healthy_registry :
  (get_device_by_form_factor 1%nat "keyboard"
     (init healthy_registry (__init__ sample_common)).2).1
    = Returns {| oid := 4; elems := [dummy_keyboard] |} /\
  (get_device_by_form_factor 1%nat "tablet"
     (init healthy_registry (__init__ sample_common)).2).1
    = Returns {| oid := 4; elems := [] |}.
Proof. split; reflexivity. Qed.

(** * Unsupported devices, troubleshooting, restart *)

Lemma unsupported_loop_lists {U} (f : Backend.t -> World -> option (list U)) w bs acc s :
  (forall b, b ∈ bs -> is_Some (f b w)) ->
  unsupported_loop U f w bs acc s
  = (Returns (acc ++ concat (omap (fun b => f b w) bs)), s).
Proof.
  revert acc. induction bs as [|b bs IH]; intros acc Hall.
  - cbn. by rewrite app_nil_r.
  - cbn [unsupported_loop omap list_omap].
    destruct (Hall b) as [l Hl]; [apply list_elem_of_here|]. rewrite Hl.
    rewrite IH by (intros b' Hb'; apply Hall; by apply list_elem_of_further).
    cbn. by rewrite app_assoc.
Qed.

Lemma unsupported_loop_raises {U} (f : Backend.t -> World -> option (list U)) w bs acc s :
  (exists b, b ∈ bs /\ f b w = None) ->
  unsupported_loop U f w bs acc s = (Raises (Exn OtherException "TypeError"), s).
Proof.
  revert acc. induction bs as [|b bs IH]; intros acc (b0 & Hin & Hnone).
  - by apply not_elem_of_nil in Hin.
  - cbn [unsupported_loop]. destruct (f b w) as [l|] eqn:Hb; [|reflexivity].
    apply IH. exists b0. split; [|done].
    apply elem_of_cons in Hin as [->|Hin]; [congruence | done].
Qed.

(** X10. When every running backend answers [get_unsupported_devices()]
    with a list, the method returns the concatenation of the answers in
    the order of the running backends, as long as their lengths together,
    and leaves the instance as it was. *)
Theorem get_unsupported_devices_concatenates
    {U} (f : Backend.t -> World -> option (list U)) w s :
  (forall b, b ∈ backends s -> is_Some (f b w)) ->
  get_unsupported_devices U f w s
    = (Returns (concat (omap (fun b => f b w) (backends s))), s) /\
  length (concat (omap (fun b => f b w) (backends s)))
    = sum_list (omap (fun b => length <$> f b w) (backends s)).
Proof.
  intros Hall. split.
  - unfold get_unsupported_devices. unfold bind at 1. unfold get at 1.
    cbv beta iota. by rewrite unsupported_loop_lists.
  - clear Hall. induction (backends s) as [|b bs IH]; cbn; [done|].
    destruct (f b w) as [l|]; cbn; [|exact IH].
    by rewrite length_app, IH.
Qed.

Lemma get_unsupported_devices_concatenates_witness :
  let s := set_backends (fun _ => [DummyBackend; HotplugBackend])
             (__init__ sample_common) in
  get_unsupported_devices string sample_unsupported 0%nat s
    = (Returns (concat (omap (fun b => sample_unsupported b 0%nat) (backends s))), s) /\
  length (concat (omap (fun b => sample_unsupported b 0%nat) (backends s)))
    = sum_list (omap (fun b => length <$> sample_unsupported b 0%nat) (backends s)).
Proof.
  intros s. apply (get_unsupported_devices_concatenates sample_unsupported 0%nat s).
  intros b. cbn. rewrite !elem_of_cons.
  intros [->|[->|Hb]]; [by eexists..|]. by apply not_elem_of_nil in Hb.
Defined.

(** X11. There is no type test in [get_unsupported_devices]: as soon as one
    running backend answers with something that is no list, the
    concatenation raises and the method returns nothing, where the
    population of the device cache passes over such an answer. *)
Theorem get_unsupported_devices_raises_on_non_list
    {U} (f : Backend.t -> World -> option (list U)) w s :
  (exists b, b ∈ backends s /\ f b w = None) ->
  get_unsupported_devices U f w s = (Raises (Exn OtherException "TypeError"), s).
Proof.
  intros Hbad. unfold get_unsupported_devices. unfold bind at 1. unfold get at 1.
  cbv beta iota. by apply unsupported_loop_raises.
Qed.

Lemma get_unsupported_devices_raises_on_non_list_witness :
  let s := set_backends (fun _ => [DummyBackend; FaultyBackend; HotplugBackend])
             (__init__ sample_common) in
  get_unsupported_devices string sample_unsupported 0%nat s
    = (Raises (Exn OtherException "TypeError"), s).
Proof.
  intros s.
  apply (get_unsupported_devices_raises_on_non_list sample_unsupported 0%nat s).
  exists FaultyBackend. split; [|reflexivity].
  cbn. rewrite !elem_of_cons. tauto.
Defined.

(** X12. [troubleshoot] never raises and leaves the instance as it was. It
    returns None for a backend id without an entry in [troubleshooters],
    the result of the routine when the routine returns, and the formatted
    exception when the routine raises; but a KeyError raised inside the
    routine is caught by the handler meant for the missing entry, and
    comes back as None. *)
Theorem troubleshoot_never_raises call_routine common_module backend s :
  exists v,
    troubleshoot call_routine common_module backend s = (Returns v, s) /\
    (troubleshooters s !! backend = None -> v = PyNone) /\
    (forall routine r,
       troubleshooters s !! backend = Some routine ->
       call_routine routine = Returns r -> v = r) /\
    (forall routine e,
       troubleshooters s !! backend = Some routine ->
       call_routine routine = Raises e ->
       v = if is_key_error e then PyNone
           else PyStr (get_exception_as_string common_module e)).
Proof.
  unfold troubleshoot, try_except, bind, get, subscript.
  destruct (troubleshooters s !! backend) as [routine|] eqn:Hlookup; cbn.
  - destruct (call_routine routine) as [r|e] eqn:Hcall; cbn.
    + exists r. split; [done|]. split; [done|]. split.
      * intros ? ? [= <-]. congruence.
      * intros ? ? [= <-]. congruence.
    + destruct (is_key_error e) eqn:Hkey; cbn;
        (eexists; split; [reflexivity|]; split; [done|]; split;
         [intros ? ? [= <-]; congruence
         |intros ? ? [= <-] Hc; rewrite Hcall in Hc; injection Hc as <-;
          by rewrite Hkey]).
  - exists PyNone. by repeat split.
Qed.

(** X13. After [init()], [troubleshoot] runs the routine registered for a
    backend id whichever way the load of that backend ended (also for a
    backend that is not installed or failed to initialise), and returns
    None for an id that is not registered. *)
Theorem init_then_troubleshoot reg common call_routine common_module
    pre backend_id post routine r :
  keys (BACKEND_NAMES reg) = pre ++ backend_id :: post ->
  (forall x, x ∈ pre -> is_Some (TROUBLESHOOT_MODULES reg !! x)) ->
  TROUBLESHOOT_MODULES reg !! backend_id = Some routine ->
  call_routine routine = Returns r ->
  let s := (init reg (__init__ common)).2 in
  troubleshoot call_routine common_module backend_id s = (Returns r, s) /\
  (forall other,
     other ∉ keys (BACKEND_NAMES reg) ->
     troubleshoot call_routine common_module other s = (Returns PyNone, s)).
Proof.
  intros Hkeys Hpre Hroutine Hcall s. split.
  - assert (Hlookup : troubleshooters s !! backend_id = Some routine).
    { unfold s. rewrite final_troubleshooters, bool_decide_eq_true_2; [done|].
      rewrite Hkeys. by apply attempted_reaches. }
    unfold troubleshoot, try_except, bind, get, subscript.
    rewrite Hlookup. cbn. by rewrite Hcall.
  - intros other Hother.
    assert (Hlookup : troubleshooters s !! other = None).
    { unfold s. rewrite final_troubleshooters. case_bool_decide as Hin; [|done].
      exfalso. apply Hother. by eapply attempted_elem_of. }
    unfold troubleshoot, try_except, bind, get, subscript.
    by rewrite Hlookup.
Qed.

Lemma init_then_troubleshoot_witness :
  let s := (init sample_registry (__init__ sample_common)).2 in
  "openrazer" ∈ not_installed s /\
  troubleshoot sample_call_routine sample_common "openrazer" s
    = (Returns (PyInt 3), s).
Proof.
  intros s. split.
  - cbn. apply list_elem_of_here.
  - refine (proj1 (init_then_troubleshoot sample_registry sample_common
                     sample_call_routine sample_common
                     [] "openrazer" ["dummy"; "idle"; "broken"]
                     "openrazer.troubleshoot" (PyInt 3) _ _ _ _));
      try reflexivity.
    intros x Hx. by apply not_elem_of_nil in Hx.
Defined.

(** The routine of "dummy" raises KeyError, that of "idle" another
    exception. *)
Example troubleshoot_of_crashing_routines :
  let s := (init sample_registry (__init__ sample_common)).2 in
  troubleshoot sample_call_routine sample_common "dummy" s = (Returns PyNone, s) /\
  troubleshoot sample_call_routine sample_common "idle" s
    = (Returns (PyStr "Traceback: crashed"), s) /\
  troubleshoot sample_call_routine sample_common "unknown" s = (Returns PyNone, s).
Proof. cbv zeta. repeat (match goal with |- _ /\ _ => split end); vm_compute; reflexivity. Qed.

(** X14. [restart] restarts the backend that [get_backend] finds for the
    id and returns what its [restart()] returns; for an id that no running
    backend has it restarts nothing and returns None. It never raises and
    leaves the instance as it was. *)
Theorem restart_of_get_backend backend_restart w backend s :
  exists found,
    get_backend backend s = (Returns found, s) /\
    restart backend_restart w backend s
      = (Returns match found with
                 | Some b => backend_restart b w
                 | None => PyNone
                 end, s).
Proof.
  eexists. split; [apply get_backend_eq|].
  unfold restart. unfold bind at 1. unfold get at 1. cbv beta iota.
  unfold bind at 1.
  rewrite (find_loop (fun b => String.eqb (Backend.backend_id b) backend)
             (fun b => backend_restart b w)).
  by destruct (List.find _ _).
Qed.

Lemma restart_of_get_backend_samples :
  let s := (init healthy_registry (__init__ sample_common)).2 in
  restart sample_restart 0%nat "dummy" s = (Returns (PyBool true), s) /\
  restart sample_restart 0%nat "openrazer" s = (Returns PyNone, s).
Proof. cbv zeta. split; vm_compute; reflexivity. Qed.

(** * The scope of the active-option look-up *)

Lemma scan_zones_of_keys zone_options zones st :
  (forall zone, zone ∈ zones -> zone ∈ keys zone_options) ->
  exists st', scan_zones zone_options zones st = Returns st'.
Proof.
  revert st. induction zones as [|zone zones IH]; intros st Hzones.
  - by exists st.
  - cbn [scan_zones].
    destruct (lookup_key_elem_of zone zone_options) as (options & -> & _);
      [apply Hzones, list_elem_of_here|].
    apply IH. intros z Hz. apply Hzones. by apply list_elem_of_further.
Qed.

Lemma current_option_of_all_zones device :
  exists r, _get_current_device_option device None = Returns r.
Proof.
  unfold _get_current_device_option.
  destruct (scan_zones_of_keys (zone_options device) (keys (zone_options device))
              initial_locals) as (st & ->); [done|].
  destruct (found_option st); eauto.
Qed.

(** X15. The scope of [_get_current_device_option]: with no zone, and with
    the empty string as zone, all zones of the device are searched and the
    method does not raise; with a named zone that the device does not have
    it raises KeyError for that zone. *)
Theorem current_option_scope device :
  (exists r, _get_current_device_option device None = Returns r) /\
  _get_current_device_option device (Some "") = _get_current_device_option device None /\
  (forall zone,
     zone <> "" ->
     lookup_key zone (zone_options device) = None ->
     _get_current_device_option device (Some zone) = Raises (Exn KeyError zone)).
Proof.
  split; [|split].
  - unfold _get_current_device_option.
    destruct (scan_zones_of_keys (zone_options device) (keys (zone_options device))
                initial_locals) as (st & ->); [done|].
    destruct (found_option st); eauto.
  - reflexivity.
  - intros zone Hzone Hnone. unfold _get_current_device_option.
    rewrite truthy_zone by done. cbn [scan_zones]. by rewrite Hnone.
Qed.

Lemma record_option_fields option st :
  found_option (record_option option st) = Some option /\
  option_id (record_option option st) = Some (opt_id option) /\
  option_data (record_option option st) = option_data st /\
  colour_hex (record_option option st) = colour_hex st /\
  param (record_option option st) = param st.
Proof. by repeat split. Qed.

(** X16. The data and the colours are not reset when a later option is
    recorded: in a zone with two active effect options, the first with
    parameters of which one is active and the second without the key
    "parameters", the method returns the id of the second option with the
    data and the colours of the parameter of the first. *)
Theorem current_option_keeps_earlier_parameter
    device zone pre first mid second post p0 ps p :
  zone <> "" ->
  lookup_key zone (zone_options device)
    = Some (pre ++ first :: mid ++ second :: post) ->
  is_active_effect first = true ->
  is_active_effect second = true ->
  (forall o, o ∈ pre ++ mid ++ post -> is_active_effect o = false) ->
  opt_parameters first = Some (p0 :: ps) ->
  last (List.filter param_active (p0 :: ps)) = Some p ->
  opt_parameters second = None ->
  _get_current_device_option device (Some zone)
    = Returns (Some (opt_id second), param_data p, Some (param_colours p)).
Proof.
  intros Hzone Hlookup Hfirst Hsecond Hothers Hparams Hlast Hnone.
  unfold _get_current_device_option.
  rewrite truthy_zone by done. cbn [scan_zones]. rewrite Hlookup.
  rewrite scan_options_skip_prefix
    by (intros o Ho; apply Hothers; rewrite elem_of_app; by left).
  rewrite scan_options_record, Hparams by done.
  rewrite (scan_options_single mid second post); [|done|].
  2:{ intros o Ho. apply Hothers. rewrite !elem_of_app in *. tauto. }
  rewrite Hnone.
  pose proof (fold_param_step (p0 :: ps) (record_option first initial_locals))
    as Hfold.
  cbv zeta in Hfold. destruct Hfold as (_ & _ & Hparam & Hdata & Hcol).
  destruct (record_option_fields second
              (fold_left param_step (p0 :: ps) (record_option first initial_locals)))
    as (-> & -> & -> & -> & ->).
  rewrite Hparam, Hdata, Hcol, Hlast, last_cons.
  by destruct (last ps).
Qed.

Lemma current_option_keeps_earlier_parameter_witness :
  _get_current_device_option
    (sample_device [("main", [brightness_option; wave_option; spectrum_option])])
    (Some "main")
  = Returns (Some "spectrum", PyInt 2, Some ["#FF0000"]).
Proof.
  refine (current_option_keeps_earlier_parameter
            (sample_device [("main", [brightness_option; wave_option; spectrum_option])])
            "main" [brightness_option] wave_option [] spectrum_option []
            {| param_active := false; param_data := PyInt 1; param_colours := [] |}
            [{| param_active := true; param_data := PyInt 2;
                param_colours := ["#FF0000"] |}]
            {| param_active := true; param_data := PyInt 2;
               param_colours := ["#FF0000"] |}
            _ _ _ _ _ _ _ _); try reflexivity; try discriminate.
  intros o. cbn. rewrite !elem_of_cons.
  intros [->|Hin]; [reflexivity|]. by apply not_elem_of_nil in Hin.
Defined.

(** X17. An active effect option with parameters none of which is active
    gives no colours: on a named zone where it is the only active effect
    option the method returns its id with no data and the empty colour
    list, whatever colours the option itself has. *)
Theorem current_option_without_active_parameter
    device zone pre option post p0 ps :
  zone <> "" ->
  lookup_key zone (zone_options device) = Some (pre ++ option :: post) ->
  is_active_effect option = true ->
  (forall o, o ∈ pre ++ post -> is_active_effect o = false) ->
  opt_parameters option = Some (p0 :: ps) ->
  (forall q, q ∈ p0 :: ps -> param_active q = false) ->
  _get_current_device_option device (Some zone)
    = Returns (Some (opt_id option), PyNone, Some []).
Proof.
  intros Hzone Hlookup Hactive Hothers Hparams Hinactive.
  unfold _get_current_device_option.
  rewrite truthy_zone by done. cbn [scan_zones]. rewrite Hlookup.
  rewrite scan_options_single, Hparams by done.
  pose proof (fold_param_step (p0 :: ps) (record_option option initial_locals))
    as Hfold.
  cbv zeta in Hfold. destruct Hfold as (Hid & Hfound & Hparam & Hdata & Hcol).
  assert (Hnone : List.filter param_active (p0 :: ps) = []).
  { clear -Hinactive. induction (p0 :: ps) as [|q l IH]; [done|].
    cbn. rewrite (Hinactive q) by apply list_elem_of_here.
    apply IH. intros q' Hq'. apply Hinactive. by apply list_elem_of_further. }
  rewrite Hnone in Hdata, Hcol. rewrite Hfound, Hparam, Hid, Hdata, Hcol.
  cbn [record_option found_option]. rewrite last_cons.
  by destruct (last ps).
Qed.

Lemma current_option_without_active_parameter_witness :
  let option :=
    {| opt_id := "ripple"; opt_type := "effect"; opt_active := Some true;
       opt_colours := ["#112233"];
       opt_parameters :=
         Some [{| param_active := false; param_data := PyInt 1;
                  param_colours := ["#445566"] |}] |} in
  _get_current_device_option
    (sample_device [("main", [brightness_option; option])]) (Some "main")
  = Returns (Some "ripple", PyNone, Some []).
Proof.
  intros option.
  refine (current_option_without_active_parameter
            (sample_device [("main", [brightness_option; option])])
            "main" [brightness_option] option []
            {| param_active := false; param_data := PyInt 1;
               param_colours := ["#445566"] |} []
            _ _ _ _ _ _); try reflexivity; try discriminate.
  - intros o. cbn. rewrite !elem_of_cons.
    intros [->|Hin]; [reflexivity|]. by apply not_elem_of_nil in Hin.
  - intros q Hq. apply list_elem_of_singleton in Hq. by subst q.
Defined.

(** * Apply a colour to all *)

(** X18. [set_bulk_colour] calls [self.get_device_all()] as well: on the
    class as it is written every call raises AttributeError before any
    device is looked at, and the instance is left as it was. *)
Theorem set_bulk_colour_raises_attribute_error get_device_all new_colour_hex s :
  set_bulk_colour get_device_all new_colour_hex s
    = (Raises (Exn AttributeError "get_device_all"), s).
Proof.
  unfold set_bulk_colour, set_bulk_colour_on, getattr.
  rewrite bool_decide_eq_false_2 by apply unbound_names.
  reflexivity.
Qed.

Section ColourWhenBound.
Variable bound_names : list string.
Variable get_device_all : M (list Device).
Hypothesis get_device_all_bound : "get_device_all" ∈ bound_names.
Hypothesis current_option_bound : "_get_current_device_option" ∈ bound_names.
Hypothesis set_device_colour_bound : "set_device_colour" ∈ bound_names.

Lemma colour_zones_loop device option_id new_colour_hex zones s :
  (forall zone, zone ∈ zones -> zone ∈ keys (zone_options device)) ->
  for_each zones (set_bulk_colour_zone bound_names device option_id new_colour_hex) s
    = (Returns tt, s).
Proof.
  induction zones as [|zone zones IH]; intros Hzones; [reflexivity|].
  cbn [for_each]. unfold bind at 1. unfold set_bulk_colour_zone at 1.
  destruct (lookup_key_elem_of zone (zone_options device)) as (options & -> & _);
    [apply Hzones, list_elem_of_here|].
  assert (Hrest : for_each zones
            (set_bulk_colour_zone bound_names device option_id new_colour_hex) s
            = (Returns tt, s)).
  { apply IH. intros z Hz. apply Hzones. by apply list_elem_of_further. }
  destruct (find_option option_id options); [|exact Hrest].
  unfold getattr. rewrite bool_decide_eq_true_2 by exact set_device_colour_bound.
  exact Hrest.
Qed.

(** X19. Were [get_device_all] bound, [set_bulk_colour] would still apply
    no colour: [set_device_colour] returns at its first statement, so the
    call ends without raising and leaves the instance as [get_device_all]
    left it, whatever the devices and the colour. *)
Theorem set_bulk_colour_changes_nothing new_colour_hex devices s s' :
  get_device_all s = (Returns devices, s') ->
  set_bulk_colour_on bound_names get_device_all new_colour_hex s = (Returns tt, s').
Proof.
  intros Hall. unfold set_bulk_colour_on. unfold getattr at 1.
  rewrite bool_decide_eq_true_2 by exact get_device_all_bound.
  unfold bind at 1. cbn [ret]. unfold bind at 1. rewrite Hall.
  clear Hall s. induction devices as [|device devices IH]; [reflexivity|].
  cbn [for_each]. unfold bind at 1. unfold getattr at 1.
  rewrite bool_decide_eq_true_2 by exact current_option_bound.
  unfold bind at 1. cbn [ret]. unfold bind at 1.
  destruct (current_option_of_all_zones device) as [[[option_id data] colours] ->].
  cbn [call ret fst].
  destruct option_id as [option_id|]; [|exact IH].
  destruct (truthy (PyStr option_id)); [|exact IH].
  by rewrite colour_zones_loop.
Qed.
End ColourWhenBound.

Lemma set_bulk_colour_changes_nothing_witness :
  set_bulk_colour_on ("get_device_all" :: Middleman_attributes)
    (ret [wave_device; dark_device]) "#FFFFFF" (__init__ sample_common)
  = (Returns tt, __init__ sample_common).
Proof.
  apply (set_bulk_colour_changes_nothing ("get_device_all" :: Middleman_attributes)
           (ret [wave_device; dark_device]))
    with (devices := [wave_device; dark_device]).
  - apply list_elem_of_here.
  - by apply (bool_decide_unpack _).
  - by apply (bool_decide_unpack _).
  - reflexivity.
Defined.

(** * Padding the colours *)

(** X20. The padding of [set_bulk_option] only appends the placeholder
    "#00FF00": the colours the option had stay in front, the list gets as
    long as the larger of its length and [colours_needed], a list that is
    long enough (and any list for a count that is zero or negative) is
    left as it is, and padding a second time changes nothing. *)
Theorem pad_colours_appends_placeholders colour_hex colours_needed :
  take (length colour_hex) (pad_colours colour_hex colours_needed) = colour_hex /\
  (forall c, c ∈ drop (length colour_hex) (pad_colours colour_hex colours_needed) ->
     c = "#00FF00") /\
  Z.of_nat (length (pad_colours colour_hex colours_needed))
    = Z.max (Z.of_nat (length colour_hex)) colours_needed /\
  ((colours_needed <= Z.of_nat (length colour_hex))%Z ->
     pad_colours colour_hex colours_needed = colour_hex) /\
  pad_colours (pad_colours colour_hex colours_needed) colours_needed
    = pad_colours colour_hex colours_needed.
Proof.
  assert (Hshort : forall l n, (n <= Z.of_nat (length l))%Z -> pad_colours l n = l).
  { intros l n Hn. unfold pad_colours.
    replace (Z.to_nat (n - Z.of_nat (length l))) with 0%nat by lia.
    apply app_nil_r. }
  split; [|split; [|split; [|split]]].
  - unfold pad_colours. by rewrite take_app_length.
  - unfold pad_colours. rewrite drop_app_length.
    intros c Hc. by apply elem_of_replicate in Hc as [-> _].
  - apply length_pad_colours.
  - apply Hshort.
  - apply Hshort. rewrite length_pad_colours. lia.
Qed.

(** * Registration order *)

Lemma attempted_sublist reg ids : sublist (attempted reg ids) ids.
Proof.
  induction ids as [|x ids IH]; cbn; [constructor|].
  apply sublist_skip. destruct (TROUBLESHOOT_MODULES reg !! x); [exact IH|].
  apply sublist_nil_l.
Qed.

Lemma omap_sublist {A B} (f : A -> option B) (l : list A) :
  exists ks, sublist ks l /\ Forall2 (fun k b => f k = Some b) ks (omap f l).
Proof.
  induction l as [|x l (ks & Hsub & Hall)]; cbn.
  - exists []. split; constructor.
  - destruct (f x) as [b|] eqn:Hx.
    + exists (x :: ks). split; [by apply sublist_skip | by constructor].
    + exists ks. split; [by apply sublist_cons | done].
Qed.

(** X21. After [init()] the running backends are in registration order:
    [backends] holds the objects built for a sub-sequence of the registered
    ids, one after the other, each with a truthy [init()]. *)
Theorem init_backends_follow_registration reg common :
  exists ids,
    sublist ids (keys (BACKEND_NAMES reg)) /\
    Forall2
      (fun backend_id b =>
         BACKEND_MODULES reg !! backend_id = Some (Returns b) /\
         exists v, Backend.init b = Returns v /\ truthy v = true)
      ids (backends (init reg (__init__ common)).2).
Proof.
  rewrite init_backends_in_registration_order.
  destruct (omap_sublist (running_backend reg)
              (attempted reg (keys (BACKEND_NAMES reg)))) as (ids & Hsub & Hall).
  exists ids. split.
  - etrans; [exact Hsub | apply attempted_sublist].
  - eapply Forall2_impl; [exact Hall|].
    intros k b Hk. unfold running_backend in Hk.
    destruct (load_result_of reg k) eqn:Hload; simplify_eq.
    by apply load_result_running.
Qed.

(** * Instances of the lemmas on what the loops would do *)

Lemma set_bulk_option_when_bound_witness :
  let bound := "get_device_all" :: "set_device_state" :: Middleman_attributes in
  let apply_state := fun (_ _ _ _ _ : string) (_ : pyval) (_ : list string) =>
                       (ret (PyBool true) : M pyval) in
  set_bulk_option_on bound (ret [two_effects_device; dark_device]) apply_state
    "static" PyNone 2%Z (__init__ sample_common)
  = for_each (bulk_requests "static" 2%Z [two_effects_device; dark_device])
      (fun '(d, zone, colours) =>
         apply_state (device_backend d) (device_uid d) (device_serial d)
           zone "static" PyNone colours ;;
         ret tt) (__init__ sample_common).
Proof.
  intros bound apply_state.
  refine (set_bulk_option_when_bound bound (ret [two_effects_device; dark_device])
            apply_state _ _ "static" PyNone 2%Z [two_effects_device; dark_device]
            (__init__ sample_common) (__init__ sample_common) _ _).
  - apply list_elem_of_here.
  - apply list_elem_of_further, list_elem_of_here.
  - reflexivity.
  - intros device Hdevice. rewrite !elem_of_cons in Hdevice.
    destruct Hdevice as [->|[->|Hdevice]]; [apply NoDup_singleton..|].
    by apply not_elem_of_nil in Hdevice.
Defined.

(** The zone of the first device offers "static" and gets one request with
    the colour padded to two; the zone of the second does not and gets
    none. *)
Example bulk_requests_of_two_devices :
  bulk_requests "static" 2%Z [two_effects_device; dark_device]
    = [(two_effects_device, "main", ["#00FF00"; "#00FF00"])].
Proof. reflexivity. Qed.

Lemma last_match_wins_without_break_witness :
  exists data colours,
    _get_current_device_option
      (sample_device [("main", [brightness_option; wave_option; spectrum_option])])
      (Some "main")
    = Returns (Some (opt_id spectrum_option), data, colours).
Proof.
  refine (last_match_wins_without_break
            (sample_device [("main", [brightness_option; wave_option; spectrum_option])])
            "main" [brightness_option; wave_option; spectrum_option]
            spectrum_option _ _ _ _); try reflexivity; try discriminate.
  intros o. rewrite !elem_of_cons.
  intros [->|[->|[->|Hin]]]; try reflexivity; try discriminate.
  by apply not_elem_of_nil in Hin.
Defined.

Lemma init_classifies_remaining_failures_witness :
  let reg :=
    {| BACKEND_NAMES := [("ghost", "Ghost"); ("lazy", "Lazy")];
       BACKEND_MODULES :=
         <["lazy" := Returns (sample_backend "lazy"
                                (Raises (Exn ImportError "usb")) (fun _ => []))]> ∅;
       TROUBLESHOOT_MODULES := <["ghost" := "ghost.troubleshoot"]> ∅ |} in
  classified_as sample_common "lazy" NotInstalled
    (init reg (__init__ sample_common)).2.
Proof.
  intros reg.
  destruct (init_classifies_remaining_failures reg sample_common
              ["ghost"] "lazy" []) as [_ Hinit].
  - reflexivity.
  - intros x Hx. apply list_elem_of_singleton in Hx. subst x.
    exists "ghost.troubleshoot". reflexivity.
  - eapply Hinit; reflexivity.
Defined.

(** * The option recorded last *)

Lemma scan_options_recorded options st :
  found_option (scan_options options st)
    = match last (List.filter is_active_effect (visited_options options)) with
      | Some o => Some o
      | None => found_option st
      end /\
  option_id (scan_options options st)
    = match last (List.filter is_active_effect (visited_options options)) with
      | Some o => Some (opt_id o)
      | None => option_id st
      end.
Proof.
  revert st. induction options as [|option rest IH]; intros st; [by cbn|].
  cbn [visited_options]. destruct (is_active_effect option) eqn:Hactive.
  - rewrite scan_options_record by done. cbn [andb].
    unfold has_empty_parameters.
    destruct (opt_parameters option) as [[|p ps]|] eqn:Hparams.
    + cbn [List.filter]. rewrite Hactive. by cbn.
    + cbn [List.filter]. rewrite Hactive, last_cons.
      pose proof (fold_param_step (p :: ps) (record_option option st)) as Hfold.
      cbv zeta in Hfold. destruct Hfold as (Hid & Hfound & _).
      destruct (IH (fold_left param_step (p :: ps) (record_option option st)))
        as [-> ->].
      rewrite Hid, Hfound.
      by destruct (last (List.filter is_active_effect (visited_options rest))).
    + cbn [List.filter]. rewrite Hactive, last_cons.
      destruct (IH (record_option option st)) as [-> ->].
      by destruct (last (List.filter is_active_effect (visited_options rest))).
  - rewrite scan_options_skip by done. cbn [andb List.filter].
    rewrite Hactive. apply IH.
Qed.

Lemma scan_zones_recorded zone_options (pairs : list (string * list DeviceOption)) st :
  (forall k v, (k, v) ∈ pairs -> lookup_key k zone_options = Some v) ->
  exists st',
    scan_zones zone_options (keys pairs) st = Returns st' /\
    found_option st'
      = match last (List.filter is_active_effect
                      (concat (visited_options <$> (snd <$> pairs)))) with
        | Some o => Some o
        | None => found_option st
        end /\
    option_id st'
      = match last (List.filter is_active_effect
                      (concat (visited_options <$> (snd <$> pairs)))) with
        | Some o => Some (opt_id o)
        | None => option_id st
        end.
Proof.
  revert st. induction pairs as [|[k v] pairs IH]; intros st Hlookup.
  - exists st. by cbn.
  - cbn [keys fmap list_fmap fst snd scan_zones concat].
    rewrite (Hlookup k v) by apply list_elem_of_here.
    destruct (IH (scan_options v st)) as (st' & Hrun & Hfound & Hid).
    { intros k' v' Hin. apply Hlookup. by apply list_elem_of_further. }
    exists st'. split; [exact Hrun|].
    destruct (scan_options_recorded v st) as [Hfound1 Hid1].
    rewrite Hfound, Hid, Hfound1, Hid1, List.filter_app, last_app.
    by destruct (last (List.filter is_active_effect
                         (concat (visited_options <$> (snd <$> pairs))))).
Qed.

Lemma visited_options_all options :
  (forall o, o ∈ options -> is_active_effect o = true ->
     has_empty_parameters o = false) ->
  visited_options options = options.
Proof.
  induction options as [|option rest IH]; intros Hfull; [reflexivity|].
  cbn [visited_options]. rewrite IH
    by (intros o Ho; apply Hfull; by apply list_elem_of_further).
  destruct (is_active_effect option) eqn:Hactive; [|reflexivity].
  by rewrite (Hfull option (list_elem_of_here _ _) Hactive).
Qed.

(** C4. For every device and every scope (one named zone of the device, or
    all zones when no zone is given), the method goes through the zones in
    order and through the options of each zone in list order, records
    every active effect option it gets to, and returns the id of the
    option recorded last, not of the first one (and no id when none was
    recorded). The loop over the options of a zone ends after an active
    effect option with an empty parameter list; when no active effect
    option of the scope has one, it gets to every option, and the last
    active effect option of the scope wins. *)
Theorem current_option_is_last_recorded device zone lists :
  NoDup (keys (zone_options device)) ->
  scoped_zones device zone = Some lists ->
  (exists data colours,
     _get_current_device_option device zone
       = Returns (opt_id <$> last (List.filter is_active_effect
                                     (concat (visited_options <$> lists))),
                  data, colours)) /\
  ((forall o, o ∈ concat lists -> is_active_effect o = true ->
      has_empty_parameters o = false) ->
   concat (visited_options <$> lists) = concat lists).
Proof.
  intros Hnodup Hscope. split.
  - assert (Hpairs : exists pairs : list (string * list DeviceOption),
              lists = snd <$> pairs /\
              (forall k v, (k, v) ∈ pairs ->
                 lookup_key k (zone_options device) = Some v) /\
              (match zone with
               | Some z => if truthy (PyStr z) then [z]
                           else keys (zone_options device)
               | None => keys (zone_options device)
               end) = keys pairs).
    { unfold scoped_zones in Hscope.
      destruct zone as [z|]; [destruct (truthy (PyStr z))|].
      - destruct (lookup_key z (zone_options device)) as [options|] eqn:Hz;
          [|done].
        injection Hscope as <-. exists [(z, options)]. split; [done|].
        split; [|done]. intros k v Hin.
        apply list_elem_of_singleton in Hin. by simplify_eq.
      - injection Hscope as <-. exists (zone_options device). split; [done|].
        split; [|done]. intros k v Hin. by apply lookup_key_NoDup.
      - injection Hscope as <-. exists (zone_options device). split; [done|].
        split; [|done]. intros k v Hin. by apply lookup_key_NoDup. }
    destruct Hpairs as (pairs & -> & Hlookup & Hzones).
    unfold _get_current_device_option. rewrite Hzones.
    destruct (scan_zones_recorded (zone_options device) pairs initial_locals Hlookup)
      as (st & -> & Hfound & Hid).
    rewrite Hfound, Hid.
    destruct (last (List.filter is_active_effect
                      (concat (visited_options <$> (snd <$> pairs)))));
      cbn; eauto.
  - intros Hfull. clear Hscope. induction lists as [|options lists IH]; [done|].
    cbn [fmap list_fmap concat]. cbn [concat] in Hfull.
    rewrite visited_options_all, IH; [done| |].
    + intros o Ho. apply Hfull. rewrite elem_of_app. by right.
    + intros o Ho. apply Hfull. rewrite elem_of_app. by left.
Qed.

Lemma current_option_is_last_recorded_witness :
  let device :=
    sample_device [("logo", [idle_effect_option; wave_option]);
                   ("main", [brightness_option; static_option; spectrum_option])] in
  List.filter is_active_effect
    (concat (visited_options <$> [[idle_effect_option; wave_option];
                                  [brightness_option; static_option; spectrum_option]]))
    = [wave_option; static_option] /\
  exists data colours,
    _get_current_device_option device None = Returns (Some "static", data, colours).
Proof.
  intros device. split; [reflexivity|].
  refine (proj1 (current_option_is_last_recorded device None
                   [[idle_effect_option; wave_option];
                    [brightness_option; static_option; spectrum_option]] _ _));
    [|reflexivity].
  cbn. apply NoDup_cons. split; [|apply NoDup_singleton].
  rewrite list_elem_of_singleton. discriminate.
Defined.
